(** * Remote-operations detection (server/events/runtime/remote_ops_checker.go)

    A shallow embedding of [DefaultRemoteOpsChecker.UsingRemoteOps] and the
    properties of it that the specification states.

    The Go function reads two files, decodes them, and calls the Terraform
    Enterprise API twice.  Everything it obtains from outside (file system,
    decoders, home directory, API client) is collected in a record [World];
    the function itself is written in a small monad [Go] that records the
    calls it makes (a trace of [event]s) and distinguishes the three ways a
    Go statement can end: falling through, [return], and a run-time panic. *)

From Stdlib Require Import String Ascii List Bool.
From stdpp Require Import base option strings gmap.

Set Default Proof Using "Type".

(** ** Errors *)

(** Arguments of a [fmt]-style format string.  The source only formats
    strings (verb [%q]) and booleans (verb [%t]). *)
Inductive fmtArg : Type :=
| ArgString (s : string)
| ArgBool (b : bool).

(** Go [error] values, by the call that built them.  [lib_error] is an error
    that a library handed to the function ([ioutil.ReadFile], [json.Unmarshal],
    [hcl.Parse], the API client ...): its message, and whether
    [os.IsNotExist] holds of it. *)
Inductive error : Type :=
| lib_error (notExist : bool) (msg : string)
| errors_New (msg : string)
| fmt_Errorf (format : string) (args : list fmtArg)
| withMessage (cause : error) (msg : string).

(** [errors.Wrap(err, msg)] of [github.com/pkg/errors]: [nil] stays [nil]. *)
Definition errors_Wrap (err : option error) (msg : string) : option error :=
  match err with
  | Some cause => Some (withMessage cause msg)
  | None => None
  end.

(** [os.IsNotExist] looks through the [os] package's own wrappers only; an
    error made by [errors.New], [fmt.Errorf] or [errors.Wrap] is never one. *)
Definition os_IsNotExist (err : error) : bool :=
  match err with
  | lib_error notExist _ => notExist
  | _ => false
  end.

(** The double-quote character, for the messages that contain one. *)
Definition dquote : string := String "034"%char EmptyString.

(** ** Rendering of messages

    [strconv.Quote], which implements the verb [%q], belongs to the Go
    runtime: it is a parameter here.  [Sprintf] covers the two verbs the
    source uses and is undefined ([None]) on anything else. *)
Section Rendering.
Variable strconv_Quote : string -> string.

Definition format_bool (b : bool) : string :=
  if b then "true" else "false".

Fixpoint Sprintf (format : string) (args : list fmtArg) : option string :=
  match format with
  | EmptyString =>
      match args with
      | [] => Some EmptyString
      | _ :: _ => None
      end
  | String "%"%char EmptyString => None
  | String "%"%char (String verb rest) =>
      match verb, args with
      | "q"%char, ArgString s :: args' =>
          option_map (String.append (strconv_Quote s)) (Sprintf rest args')
      | "t"%char, ArgBool b :: args' =>
          option_map (String.append (format_bool b)) (Sprintf rest args')
      | _, _ => None
      end
  | String c rest => option_map (String c) (Sprintf rest args)
  end.

(** The method [Error()] of an error value.  [errors.Wrap(err, msg)]
    prints as [msg: err]. *)
Fixpoint Error (err : error) : option string :=
  match err with
  | lib_error _ msg => Some msg
  | errors_New msg => Some msg
  | fmt_Errorf format args => Sprintf format args
  | withMessage cause msg =>
      option_map (fun c => msg +:+ ": " +:+ c) (Error cause)
  end.
End Rendering.

(** ** Data model *)

(** One element of [backend.config.workspaces].  Both fields are plain Go
    strings: a key missing from the JSON leaves the empty string. *)
Record WorkspaceEntry : Type := {
  Name : string;
  Prefix : string;
}.

(** [backend.config]; the three fields are pointers in the source, hence
    [option]. *)
Record BackendConfig : Type := {
  Hostname : option string;
  Organization : option string;
  Workspaces : option (list WorkspaceEntry);
}.

Record BackendBlock : Type := {
  Type_ : option string;
  Config : option BackendConfig;
}.

Record Statefile : Type := {
  Backend : option BackendBlock;
}.

Module RemoteBackend.
Record t : Type := {
  Hostname : string;
  Organization : string;
  WorkspaceName : string;
  WorkspacePrefix : string;
}.

(** The composite literal [RemoteBackend{}]: every field at its zero value. *)
Definition zero : t :=
  {| Hostname := EmptyString; Organization := EmptyString;
     WorkspaceName := EmptyString; WorkspacePrefix := EmptyString |}.
End RemoteBackend.

(** A value decoded by [hcl] into an [interface{}]. *)
#[local] Unset Elimination Schemes.
Inductive hclValue : Type :=
| HString (s : string)
| HInt (n : Z)
| HBool (b : bool)
| HList (l : list hclValue)
| HObject (fields : list (string * hclValue)).
#[local] Set Elimination Schemes.

(** The local struct [Config] that the credentials file is decoded into:
    [map[string]map[string]interface{}]. *)
Module Terraformrc.
Record Config : Type := {
  Credentials : gmap string (gmap string hclValue);
}.
End Terraformrc.

(** [tfe.Entitlements] and [tfe.Workspace]; the function reads one field of
    each. *)
Module Entitlements.
Record t : Type := { Operations : bool }.
End Entitlements.

Module Workspace.
Record t : Type := { Operations : bool }.
End Workspace.

(** ** The outside world *)

Record World : Type := {
  filepath_Join : string -> string -> string;
  (** [ioutil.ReadFile]: the bytes of the file, or an error. *)
  ReadFile : string -> error + string;
  (** [json.Unmarshal] of the state bytes into a [Statefile]. *)
  json_Unmarshal : string -> error + Statefile;
  homedir_Dir : error + string;
  ast_File : Type;
  hcl_Parse : string -> error + ast_File;
  hcl_DecodeObject : ast_File -> error + Terraformrc.Config;
  tfe_Client : Type;
  (** [tfe.NewClient(&tfe.Config{Token: token})]. *)
  tfe_NewClient : string -> error + tfe_Client;
  (** The two API methods return a pointer and an error; the source tests
      both. *)
  Organizations_Entitlements :
    tfe_Client -> string -> option Entitlements.t * option error;
  Workspaces_Read :
    tfe_Client -> string -> string -> option Workspace.t * option error;
}.

(** ** The monad of Go statements *)

Inductive level : Type := DebugLevel | WarnLevel.

(** What the function does to the outside, in order. *)
Inductive event : Type :=
| EvLog (lvl : level) (format : string) (args : list fmtArg)
| EvReadFile (path : string)
| EvHomeDir
| EvNewClient (token : string)
| EvEntitlements (organization : string)
| EvWorkspacesRead (organization : string) (workspace : string).

Inductive panic : Type :=
| nil_pointer_dereference
| index_out_of_range (i len : nat)
| interface_conversion (v : hclValue).

(** How a statement ends, in a function whose results have type [R]. *)
Inductive step (R A : Type) : Type :=
| Next (a : A)
| Return (r : R)
| Panic (p : panic).
Arguments Next {R A} a.
Arguments Return {R A} r.
Arguments Panic {R A} p.

Definition Go (R A : Type) : Type := list event * step R A.

Definition pure {R A} (a : A) : Go R A := ([], Next a).
Definition ret {R A} (r : R) : Go R A := ([], Return r).
Definition throw {R A} (p : panic) : Go R A := ([], Panic p).
Definition emit {R} (e : event) : Go R unit := ([e], Next tt).

Definition bind {R A B} (m : Go R A) (k : A -> Go R B) : Go R B :=
  match m with
  | (t, Next a) => let '(t', s) := k a in (t ++ t', s)
  | (t, Return r) => (t, Return r)
  | (t, Panic p) => (t, Panic p)
  end.

Declare Scope go_scope.
Delimit Scope go_scope with go.
Notation "x <- m ;; k" := (bind m (fun x => k))
  (at level 100, m at next level, right associativity) : go_scope.
Notation "m ;; k" := (bind m (fun _ => k))
  (at level 100, right associativity) : go_scope.
Open Scope go_scope.

(** [if c { body }] where the body ends in [return]. *)
Definition when {R} (c : bool) (body : Go R unit) : Go R unit :=
  if c then body else pure tt.

(** [*p]. *)
Definition deref {R A} (p : option A) : Go R A :=
  match p with
  | Some a => pure a
  | None => throw nil_pointer_dereference
  end.

(** [l[i]]. *)
Definition index {R A} (l : list A) (i : nat) : Go R A :=
  match l !! i with
  | Some a => pure a
  | None => throw (index_out_of_range i (length l))
  end.

(** [p == nil]. *)
Definition is_nil {A} (p : option A) : bool :=
  match p with
  | Some _ => false
  | None => true
  end.

(** [v.(string)], the unchecked form of the type assertion. *)
Definition assert_string {R} (v : hclValue) : Go R string :=
  match v with
  | HString s => pure s
  | _ => throw (interface_conversion v)
  end.

(** Calling a function literal: its [return] is the value of the call, its
    panic goes on unwinding. *)
Definition call {R R'} (body : Go R Empty_set) : Go R' R :=
  match body with
  | (t, Next a) => match a with end
  | (t, Return r) => (t, Next r)
  | (t, Panic p) => (t, Panic p)
  end.

Definition log_Debug {R} (format : string) (args : list fmtArg) : Go R unit :=
  emit (EvLog DebugLevel format args).
Definition log_Warn {R} (format : string) (args : list fmtArg) : Go R unit :=
  emit (EvLog WarnLevel format args).

(** ** The function *)

Section UsingRemoteOps.
Variable W : World.

Definition ioutil_ReadFile {R} (path : string) : Go R (error + string) :=
  emit (EvReadFile path) ;; pure (ReadFile W path).

Definition homedir_Dir_call {R} : Go R (error + string) :=
  emit EvHomeDir ;; pure (homedir_Dir W).

Definition tfe_NewClient_call {R} (token : string)
  : Go R (error + tfe_Client W) :=
  emit (EvNewClient token) ;; pure (tfe_NewClient W token).

Definition client_Organizations_Entitlements {R}
    (client : tfe_Client W) (organization : string)
  : Go R (option Entitlements.t * option error) :=
  emit (EvEntitlements organization) ;;
  pure (Organizations_Entitlements W client organization).

Definition client_Workspaces_Read {R}
    (client : tfe_Client W) (organization workspace : string)
  : Go R (option Workspace.t * option error) :=
  emit (EvWorkspacesRead organization workspace) ;;
  pure (Workspaces_Read W client organization workspace).

Definition msg_no_config : string :=
  "statefile backend is of type " +:+ dquote +:+ "remote" +:+ dquote
  +:+ " but has no backend.config block".
Definition msg_no_organization : string :=
  "statefile backend is of type " +:+ dquote +:+ "remote" +:+ dquote
  +:+ " but has no organization set".
Definition msg_no_workspaces : string :=
  "statefile backend is of type " +:+ dquote +:+ "remote" +:+ dquote
  +:+ " but has no workspaces set".
Definition msg_no_name_or_prefix : string :=
  "statefile backend is of type " +:+ dquote +:+ "remote" +:+ dquote
  +:+ " but workspace has neither name nor prefix set".
Definition fmt_not_remote : string :=
  "statefile backend type is %q, not " +:+ dquote +:+ "remote" +:+ dquote
  +:+ " so remote ops are not being used".

(** The function literal of lines 65-104.  It ignores its parameter [s]
    and reads the captured variable [statefile]. *)
Definition validate (statefile : Statefile) (s : Statefile)
  : Go (bool * RemoteBackend.t * option error) Empty_set :=
  let backend := Backend statefile in
  when (is_nil backend) (
    log_Debug "statefile had no backend block so remote ops are not being used" [] ;;
    ret (false, RemoteBackend.zero, None)) ;;
  backend_ <- deref backend ;;
  type <- deref (Type_ backend_) ;;
  when (negb (String.eqb type "remote")) (
    sb <- deref (Backend statefile) ;;
    type' <- deref (Type_ sb) ;;
    log_Debug fmt_not_remote [ArgString type'] ;;
    ret (false, RemoteBackend.zero, None)) ;;
  when (is_nil (Config backend_)) (
    ret (false, RemoteBackend.zero, Some (errors_New msg_no_config))) ;;
  config <- deref (Config backend_) ;;
  when (is_nil (Organization config)) (
    ret (false, RemoteBackend.zero, Some (errors_New msg_no_organization))) ;;
  org <- deref (Organization config) ;;
  noWorkspaces <-
    (if is_nil (Workspaces config) then pure true
     else l <- deref (Workspaces config) ;; pure (Nat.eqb (length l) 0)) ;;
  when noWorkspaces (
    ret (false, RemoteBackend.zero, Some (errors_New msg_no_workspaces))) ;;
  workspaces <- deref (Workspaces config) ;;
  workspace <- index workspaces 0 ;;
  when (String.eqb (Name workspace) EmptyString
        && String.eqb (Prefix workspace) EmptyString) (
    ret (false, RemoteBackend.zero, Some (errors_New msg_no_name_or_prefix))) ;;
  let hostname := "app.terraform.io" in
  let hostname :=
    match Hostname config with
    | Some h => h
    | None => hostname
    end in
  ret (true,
       {| RemoteBackend.Hostname := hostname;
          RemoteBackend.Organization := org;
          RemoteBackend.WorkspaceName := Name workspace;
          RemoteBackend.WorkspacePrefix := Prefix workspace |},
       None).

Definition fmt_determined : string :=
  "determined using remote backend with hostname: %q, org: %q, workspace name: %q, workspace prefix: %q".
Definition fmt_no_credentials : string :=
  "found no credentials config for hostname %q in %q".
Definition fmt_no_token : string :=
  "found no token key in config for hostname %q in %q".
Definition fmt_not_entitled : string :=
  "organization %q does not have the operations entitlement so remote ops are not being used".
Definition fmt_entitled : string :=
  "organization %q has the operations entitlement. Now checking if workspace %q has remote ops enabled".

(** Lines 24-187. *)
Definition UsingRemoteOps (workspace projectAbsPath : string)
  : Go (bool * option error) Empty_set :=
  log_Debug "reading statefile to check if using TFE remote ops" [] ;;
  (* First, parse the statefile to determine the backend type. *)
  r <- ioutil_ReadFile
         (filepath_Join W projectAbsPath ".terraform/terraform.tfstate") ;;
  stateBytes <-
    match r with
    | inl err =>
        when (os_IsNotExist err) (
          log_Warn "statefile does not exist, assuming not using remote ops" [] ;;
          ret (false, None)) ;;
        ret (false, Some err)
    | inr bytes => pure bytes
    end ;;
  statefile <-
    match json_Unmarshal W stateBytes with
    | inl err => ret (false, Some err)
    | inr statefile => pure statefile
    end ;;
  (* Validate the statefile. *)
  result <- call (validate statefile statefile) ;;
  let '(isRemote, backend, err) := result in
  when (negb (is_nil err)) (
    ret (false, err)) ;;
  when (negb isRemote) (
    log_Debug "determined not using remote backend" [] ;;
    ret (false, None)) ;;
  log_Debug fmt_determined
    [ArgString (RemoteBackend.Hostname backend);
     ArgString (RemoteBackend.Organization backend);
     ArgString (RemoteBackend.WorkspaceName backend);
     ArgString (RemoteBackend.WorkspacePrefix backend)] ;;
  (* Read and parse the ~/.terraformrc file. *)
  log_Debug "retrieving TFE token from .terraformrc file" [] ;;
  r <- homedir_Dir_call ;;
  home <-
    match r with
    | inl err =>
        ret (false, errors_Wrap (Some err) "retrieving token from .terraformrc file")
    | inr home => pure home
    end ;;
  let rcFilePath := filepath_Join W home ".terraformrc" in
  r <- ioutil_ReadFile rcFilePath ;;
  rcFileBytes <-
    match r with
    | inl err =>
        ret (false, errors_Wrap (Some err) "retrieving token from .terraformrc file")
    | inr bytes => pure bytes
    end ;;
  obj <-
    match hcl_Parse W rcFileBytes with
    | inl err =>
        ret (false, errors_Wrap (Some err) "parsing .terraformrc file to retrieve TFE token")
    | inr obj => pure obj
    end ;;
  rcFile <-
    match hcl_DecodeObject W obj with
    | inl err =>
        ret (false, errors_Wrap (Some err) "decoding .terraformrc file to retrieve TFE token")
    | inr rcFile => pure rcFile
    end ;;
  hostnameConf <-
    match Terraformrc.Credentials rcFile !! RemoteBackend.Hostname backend with
    | None =>
        ret (false, Some (fmt_Errorf fmt_no_credentials
               [ArgString (RemoteBackend.Hostname backend); ArgString rcFilePath]))
    | Some hostnameConf => pure hostnameConf
    end ;;
  tokenGeneric <-
    match hostnameConf !! "token" with
    | None =>
        ret (false, Some (fmt_Errorf fmt_no_token
               [ArgString (RemoteBackend.Hostname backend); ArgString rcFilePath]))
    | Some tokenGeneric => pure tokenGeneric
    end ;;
  token <- assert_string tokenGeneric ;;
  log_Debug "successfully found token for hostname %q"
    [ArgString (RemoteBackend.Hostname backend)] ;;
  (* Now that we've got our token, we can make the TFE API call to figure
     out if this org uses the remote backend. *)
  log_Debug "calling TFE API to determine entitlements" [] ;;
  r <- tfe_NewClient_call token ;;
  client <-
    match r with
    | inl err =>
        ret (false, errors_Wrap (Some err) "creating TFE API client to determine if using remote ops")
    | inr client => pure client
    end ;;
  answer <-
    client_Organizations_Entitlements client (RemoteBackend.Organization backend) ;;
  let '(entitlements, err) := answer in
  when (negb (is_nil err)) (
    ret (false, errors_Wrap err "calling TFE API to determine if using remote ops")) ;;
  when (is_nil entitlements) (
    ret (false, Some (errors_New
           "got nil entitlements calling TFE API to determine if using remote ops"))) ;;
  entitlements_ <- deref entitlements ;;
  when (negb (Entitlements.Operations entitlements_)) (
    log_Debug fmt_not_entitled [ArgString (RemoteBackend.Organization backend)] ;;
    ret (false, None)) ;;
  (* If they're entitled to use remote ops, we check if this workspace is
     using remote ops. *)
  let tfeWorkspaceName := RemoteBackend.WorkspaceName backend in
  let tfeWorkspaceName :=
    if negb (String.eqb (RemoteBackend.WorkspacePrefix backend) EmptyString)
    then RemoteBackend.WorkspacePrefix backend +:+ workspace
    else tfeWorkspaceName in
  log_Debug fmt_entitled
    [ArgString (RemoteBackend.Organization backend); ArgString tfeWorkspaceName] ;;
  answer <-
    client_Workspaces_Read client (RemoteBackend.Organization backend)
      tfeWorkspaceName ;;
  let '(tfeWorkspace, err) := answer in
  when (negb (is_nil err)) (
    ret (false, errors_Wrap err "calling TFE API to determine if using remote ops")) ;;
  when (is_nil tfeWorkspace) (
    ret (false, Some (errors_New
           "got nil workspace calling TFE API to determine if using remote ops"))) ;;
  tfeWorkspace_ <- deref tfeWorkspace ;;
  log_Debug "workspace %q has remote ops set to %t"
    [ArgString tfeWorkspaceName; ArgBool (Workspace.Operations tfeWorkspace_)] ;;
  ret (Workspace.Operations tfeWorkspace_, None).
End UsingRemoteOps.

(** ** Reading a run *)

Definition events {R A} (g : Go R A) : list event := fst g.
Definition outcome {R A} (g : Go R A) : step R A := snd g.

Definition statefilePath (W : World) (projectAbsPath : string) : string :=
  filepath_Join W projectAbsPath ".terraform/terraform.tfstate".

(** The project's state file is there and decodes to [sf]. *)
Definition statefile_of (W : World) (projectAbsPath : string) (sf : Statefile)
  : Prop :=
  exists bytes,
    ReadFile W (statefilePath W projectAbsPath) = inr bytes /\
    json_Unmarshal W bytes = inr sf.

(** The function literal accepts the state file and yields [backend]. *)
Definition resolves (sf : Statefile) (backend : RemoteBackend.t) : Prop :=
  validate sf sf = ([], Return (true, backend, None)).

(** The credentials file is at [rcFilePath] and decodes to [rcFile]. *)
Definition credentials_of (W : World) (rcFilePath : string)
    (rcFile : Terraformrc.Config) : Prop :=
  exists home bytes obj,
    homedir_Dir W = inr home /\
    rcFilePath = filepath_Join W home ".terraformrc" /\
    ReadFile W rcFilePath = inr bytes /\
    hcl_Parse W bytes = inr obj /\
    hcl_DecodeObject W obj = inr rcFile.

(** The credentials file holds the textual token [token] for the backend's
    host. *)
Definition token_of (W : World) (backend : RemoteBackend.t)
    (rcFilePath token : string) : Prop :=
  exists rcFile hostnameConf,
    credentials_of W rcFilePath rcFile /\
    Terraformrc.Credentials rcFile !! RemoteBackend.Hostname backend
      = Some hostnameConf /\
    hostnameConf !! "token" = Some (HString token).

(** The run gets as far as an API client: state file resolved, token found,
    client built. *)
Definition client_ready (W : World) (projectAbsPath : string)
    (backend : RemoteBackend.t) (client : tfe_Client W) : Prop :=
  exists sf rcFilePath token,
    statefile_of W projectAbsPath sf /\
    resolves sf backend /\
    token_of W backend rcFilePath token /\
    tfe_NewClient W token = inr client.

(** The name of the remote workspace that lines 173-176 compute. *)
Definition tfeWorkspaceName (backend : RemoteBackend.t) (workspace : string)
  : string :=
  if negb (String.eqb (RemoteBackend.WorkspacePrefix backend) EmptyString)
  then RemoteBackend.WorkspacePrefix backend +:+ workspace
  else RemoteBackend.WorkspaceName backend.

(** The run has a client and the organization has the operations
    entitlement. *)
Definition entitled (W : World) (projectAbsPath : string)
    (backend : RemoteBackend.t) (client : tfe_Client W) : Prop :=
  client_ready W projectAbsPath backend client /\
  exists e,
    Organizations_Entitlements W client (RemoteBackend.Organization backend)
      = (Some e, None) /\
    Entitlements.Operations e = true.






(** The two calls that go to the remote API. *)
Definition is_remote_call (e : event) : bool :=
  match e with
  | EvEntitlements _ | EvWorkspacesRead _ _ => true
  | _ => false
  end.

(** Every way the function literal can end on the state file [sf]. *)
Inductive validated (sf : Statefile)
  : Go (bool * RemoteBackend.t * option error) Empty_set -> Prop :=
| validated_no_backend :
    Backend sf = None ->
    validated sf
      ([EvLog DebugLevel
          "statefile had no backend block so remote ops are not being used" []],
       Return (false, RemoteBackend.zero, None))
| validated_nil_type b :
    Backend sf = Some b -> Type_ b = None ->
    validated sf ([], Panic nil_pointer_dereference)
| validated_not_remote b type :
    Backend sf = Some b -> Type_ b = Some type -> type <> "remote" ->
    validated sf
      ([EvLog DebugLevel fmt_not_remote [ArgString type]],
       Return (false, RemoteBackend.zero, None))
| validated_invalid b msg :
    Backend sf = Some b -> Type_ b = Some "remote" ->
    In msg [msg_no_config; msg_no_organization; msg_no_workspaces;
            msg_no_name_or_prefix] ->
    validated sf
      ([], Return (false, RemoteBackend.zero, Some (errors_New msg)))
| validated_resolved b c org w rest backend :
    Backend sf = Some b -> Type_ b = Some "remote" -> Config b = Some c ->
    Organization c = Some org -> Workspaces c = Some (w :: rest) ->
    Name w <> EmptyString \/ Prefix w <> EmptyString ->
    backend =
      {| RemoteBackend.Hostname :=
           match Hostname c with
           | Some h => h
           | None => "app.terraform.io"
           end;
         RemoteBackend.Organization := org;
         RemoteBackend.WorkspaceName := Name w;
         RemoteBackend.WorkspacePrefix := Prefix w |} ->
    validated sf ([], Return (true, backend, None)).

(** ** Comparing state files *)

(** The state file with every workspace entry after the first dropped. *)
Definition keep_first_workspace (sf : Statefile) : Statefile :=
  {| Backend :=
       option_map
         (fun b =>
            {| Type_ := Type_ b;
               Config :=
                 option_map
                   (fun c =>
                      {| Hostname := Hostname c;
                         Organization := Organization c;
                         Workspaces := option_map (take 1) (Workspaces c) |})
                   (Config b) |})
         (Backend sf) |}.

(** The world [W] with other files on disk and another decoding of the state
    file; everything else (home directory, credentials decoding, API) is
    [W]'s. *)
Definition with_files (W : World) (read : string -> error + string)
    (unmarshal : string -> error + Statefile) : World :=
  {| filepath_Join := filepath_Join W;
     ReadFile := read;
     json_Unmarshal := unmarshal;
     homedir_Dir := homedir_Dir W;
     ast_File := ast_File W;
     hcl_Parse := hcl_Parse W;
     hcl_DecodeObject := hcl_DecodeObject W;
     tfe_Client := tfe_Client W;
     tfe_NewClient := tfe_NewClient W;
     Organizations_Entitlements := Organizations_Entitlements W;
     Workspaces_Read := Workspaces_Read W |}.

(** ** A world to run in

    The project is [/proj], the home directory [/home/atlantis]; the state
    file decodes to [decoded], the credentials file to [creds]; the API
    answers [ent] and [ws]. *)
Definition demoWorld (decoded : error + Statefile)
    (creds : gmap string (gmap string hclValue))
    (ent : option Entitlements.t * option error)
    (ws : string -> option Workspace.t * option error) : World :=
  {| filepath_Join := fun dir file => dir +:+ "/" +:+ file;
     ReadFile := fun path =>
       if String.eqb path "/proj/.terraform/terraform.tfstate" then inr "state"
       else if String.eqb path "/home/atlantis/.terraformrc" then inr "rc"
       else inl (lib_error true "no such file or directory");
     json_Unmarshal := fun _ => decoded;
     homedir_Dir := inr "/home/atlantis";
     ast_File := unit;
     hcl_Parse := fun _ => inr tt;
     hcl_DecodeObject := fun _ => inr {| Terraformrc.Credentials := creds |};
     tfe_Client := string;
     tfe_NewClient := fun token => inr token;
     Organizations_Entitlements := fun _ _ => ent;
     Workspaces_Read := fun _ _ name => ws name |}.

(** A state file with a [remote] backend of organization [acme]. *)
Definition remoteConfig (hostname : option string) (l : list WorkspaceEntry)
  : BackendConfig :=
  {| Hostname := hostname; Organization := Some "acme"; Workspaces := Some l |}.

Definition remoteBlock (hostname : option string) (l : list WorkspaceEntry)
  : BackendBlock :=
  {| Type_ := Some "remote"; Config := Some (remoteConfig hostname l) |}.

Definition remoteState (hostname : option string) (l : list WorkspaceEntry)
  : Statefile :=
  {| Backend := Some (remoteBlock hostname l) |}.

Definition demoCredentials (token : hclValue)
  : gmap string (gmap string hclValue) :=
  {[ "app.terraform.io" := {[ "token" := token ]} ]}.

Definition operations (flag : bool) : option Entitlements.t * option error :=
  (Some {| Entitlements.Operations := flag |}, None).

(** The remote workspace [my-prod] has remote operations on, every other
    one off. *)
Definition demoWorkspaces (name : string) : option Workspace.t * option error :=
  (Some {| Workspace.Operations := String.eqb name "my-prod" |}, None).

(** Worlds for the examples below. *)
Definition prefixedEntry : WorkspaceEntry :=
  {| Name := EmptyString; Prefix := "my-" |}.
Definition exactEntry : WorkspaceEntry :=
  {| Name := "exact"; Prefix := EmptyString |}.
Definition bothEntry : WorkspaceEntry :=
  {| Name := "exact"; Prefix := "my-" |}.
Definition emptyEntry : WorkspaceEntry :=
  {| Name := EmptyString; Prefix := EmptyString |}.

Definition demoBackend (w : WorkspaceEntry) : RemoteBackend.t :=
  {| RemoteBackend.Hostname := "app.terraform.io";
     RemoteBackend.Organization := "acme";
     RemoteBackend.WorkspaceName := Name w;
     RemoteBackend.WorkspacePrefix := Prefix w |}.

(** An entitled organization, a state file with the workspace entries [l]. *)
Definition demoEntitled (l : list WorkspaceEntry) : World :=
  demoWorld (inr (remoteState None l)) (demoCredentials (HString "secret"))
    (operations true) demoWorkspaces.

Definition demoNotEntitled : World :=
  demoWorld (inr (remoteState None [prefixedEntry]))
    (demoCredentials (HString "secret")) (operations false) demoWorkspaces.

(** The state file [{"backend": {}}]. *)
Definition demoNoType : World :=
  demoWorld (inr {| Backend := Some {| Type_ := None; Config := None |} |})
    (demoCredentials (HString "secret")) (operations true) demoWorkspaces.

(** The credentials file [credentials "app.terraform.io" { token = 123 }]. *)
Definition demoNumericToken : World :=
  demoWorld (inr (remoteState None [prefixedEntry]))
    (demoCredentials (HInt 123)) (operations true) demoWorkspaces.

(** A credentials file with the given content, behind a valid state file. *)
Definition demoWithCredentials (creds : gmap string (gmap string hclValue))
  : World :=
  demoWorld (inr (remoteState None [prefixedEntry])) creds (operations true)
    demoWorkspaces.

(** A [remote] backend whose config has no organization. *)
Definition demoNoOrganization : World :=
  demoWorld
    (inr {| Backend :=
              Some {| Type_ := Some "remote";
                      Config := Some {| Hostname := None;
                                        Organization := None;
                                        Workspaces := Some [prefixedEntry] |} |} |})
    (demoCredentials (HString "secret")) (operations true) demoWorkspaces.

(** ** More ways to look at a run *)

(** The events that leave the process: everything but the log lines. *)
Definition is_call (e : event) : bool :=
  match e with
  | EvLog _ _ _ => false
  | _ => true
  end.

(** What lines 141-149 read of the credentials for [hostname]: whether the
    host has an entry, and what that entry holds under [token]. *)
Definition token_entry (rcFile : Terraformrc.Config) (hostname : string)
  : option (option hclValue) :=
  option_map (fun hostnameConf : gmap string hclValue => hostnameConf !! "token")
    (Terraformrc.Credentials rcFile !! hostname).

(** The world [W] with another decoding of the credentials file. *)
Definition with_credentials (W : World)
    (decode : ast_File W -> error + Terraformrc.Config) : World :=
  {| filepath_Join := filepath_Join W;
     ReadFile := ReadFile W;
     json_Unmarshal := json_Unmarshal W;
     homedir_Dir := homedir_Dir W;
     ast_File := ast_File W;
     hcl_Parse := hcl_Parse W;
     hcl_DecodeObject := decode;
     tfe_Client := tfe_Client W;
     tfe_NewClient := tfe_NewClient W;
     Organizations_Entitlements := Organizations_Entitlements W;
     Workspaces_Read := Workspaces_Read W |}.

(** The world [W] in which no API client can be built. *)
Definition with_client_error (W : World) (err : error) : World :=
  {| filepath_Join := filepath_Join W;
     ReadFile := ReadFile W;
     json_Unmarshal := json_Unmarshal W;
     homedir_Dir := homedir_Dir W;
     ast_File := ast_File W;
     hcl_Parse := hcl_Parse W;
     hcl_DecodeObject := hcl_DecodeObject W;
     tfe_Client := tfe_Client W;
     tfe_NewClient := fun _ => inl err;
     Organizations_Entitlements := Organizations_Entitlements W;
     Workspaces_Read := Workspaces_Read W |}.

(** A state file that cannot be read for another reason than its absence. *)
Definition permissionDenied : error :=
  lib_error false "open /proj/.terraform/terraform.tfstate: permission denied".

Definition demoUnreadableState : World :=
  with_files (demoEntitled [prefixedEntry]) (fun _ => inl permissionDenied)
    (json_Unmarshal (demoEntitled [prefixedEntry])).

(** A state file that is not JSON. *)
Definition syntaxError : error :=
  lib_error false "unexpected end of JSON input".

Definition demoUndecodableState : World :=
  demoWorld (inl syntaxError) (demoCredentials (HString "secret"))
    (operations true) demoWorkspaces.

(** A valid state file, no credentials file. *)
Definition demoNoCredentialsFile : World :=
  with_files (demoEntitled [prefixedEntry])
    (fun path =>
       if String.eqb path "/proj/.terraform/terraform.tfstate" then inr "state"
       else inl (lib_error true "no such file or directory"))
    (json_Unmarshal (demoEntitled [prefixedEntry])).

(** A remote backend on the host [tfe.example.com]. *)
Definition demoOwnHost (creds : gmap string (gmap string hclValue)) : World :=
  demoWorld (inr (remoteState (Some "tfe.example.com") [prefixedEntry])) creds
    (operations true) demoWorkspaces.

(** The API fails on the entitlements query. *)
Definition demoEntitlementsDown : World :=
  demoWorld (inr (remoteState None [prefixedEntry]))
    (demoCredentials (HString "secret"))
    (Some {| Entitlements.Operations := true |},
     Some (lib_error false "unauthorized"))
    demoWorkspaces.

(** * Proofs *)

Create HintDb go_ops.
#[local] Hint Unfold ioutil_ReadFile homedir_Dir_call tfe_NewClient_call
  client_Organizations_Entitlements client_Workspaces_Read
  log_Debug log_Warn when deref index assert_string call emit ret pure throw
  bind is_nil events outcome : go_ops.

(** Unfold the monad and compute. *)
Ltac go_simpl := autounfold with go_ops; cbn.

(** Split on a scrutinee that is not itself a case analysis. *)
Ltac go_case :=
  match goal with
  | |- context [match ?x with _ => _ end] =>
      lazymatch x with
      | context [match _ with _ => _ end] => fail
      | _ => destruct x eqn:?
      end
  end.

Ltac go_cases := go_simpl; repeat (go_case; cbn).

(** Use the equations at hand on the scrutinees of the goal. *)
Ltac go_rewrite :=
  repeat match goal with
         | H : ?lhs = _ |- context [match ?lhs with _ => _ end] =>
             rewrite H; cbn
         end.

Lemma eqb_empty_false (s : string) :
  s <> EmptyString -> String.eqb s EmptyString = false.
Proof. intros H. apply String.eqb_neq. exact H. Qed.

Section Validate.
Variables sf s : Statefile.

Lemma validate_no_backend :
  Backend sf = None ->
  validate sf s =
    ([EvLog DebugLevel
        "statefile had no backend block so remote ops are not being used" []],
     Return (false, RemoteBackend.zero, None)).
Proof. intros H. unfold validate. rewrite H. reflexivity. Qed.

Lemma validate_nil_type b :
  Backend sf = Some b -> Type_ b = None ->
  validate sf s = ([], Panic nil_pointer_dereference).
Proof.
  intros H1 H2. unfold validate. rewrite H1. go_simpl. rewrite H2.
  reflexivity.
Qed.

Lemma validate_not_remote b type :
  Backend sf = Some b -> Type_ b = Some type -> type <> "remote" ->
  validate sf s =
    ([EvLog DebugLevel fmt_not_remote [ArgString type]],
     Return (false, RemoteBackend.zero, None)).
Proof.
  intros H1 H2 Hne. unfold validate. rewrite H1. go_simpl. rewrite H2. cbn.
  apply String.eqb_neq in Hne. rewrite Hne. reflexivity.
Qed.

Lemma validate_no_config b :
  Backend sf = Some b -> Type_ b = Some "remote" -> Config b = None ->
  validate sf s =
    ([], Return (false, RemoteBackend.zero, Some (errors_New msg_no_config))).
Proof.
  intros H1 H2 H3. unfold validate. rewrite H1. go_simpl.
  rewrite H2, H3. reflexivity.
Qed.

Lemma validate_no_organization b c :
  Backend sf = Some b -> Type_ b = Some "remote" -> Config b = Some c ->
  Organization c = None ->
  validate sf s =
    ([], Return (false, RemoteBackend.zero,
                 Some (errors_New msg_no_organization))).
Proof.
  intros H1 H2 H3 H4. unfold validate. rewrite H1. go_simpl.
  rewrite H2, H3. cbn. rewrite H4. reflexivity.
Qed.

Lemma validate_no_workspaces b c org :
  Backend sf = Some b -> Type_ b = Some "remote" -> Config b = Some c ->
  Organization c = Some org ->
  Workspaces c = None \/ Workspaces c = Some [] ->
  validate sf s =
    ([], Return (false, RemoteBackend.zero,
                 Some (errors_New msg_no_workspaces))).
Proof.
  intros H1 H2 H3 H4 H5. unfold validate. rewrite H1. go_simpl.
  rewrite H2, H3. cbn. rewrite H4. cbn.
  destruct H5 as [H5 | H5]; rewrite H5; reflexivity.
Qed.

Lemma validate_no_name_or_prefix b c org w rest :
  Backend sf = Some b -> Type_ b = Some "remote" -> Config b = Some c ->
  Organization c = Some org -> Workspaces c = Some (w :: rest) ->
  Name w = EmptyString -> Prefix w = EmptyString ->
  validate sf s =
    ([], Return (false, RemoteBackend.zero,
                 Some (errors_New msg_no_name_or_prefix))).
Proof.
  intros H1 H2 H3 H4 H5 H6 H7. unfold validate. rewrite H1. go_simpl.
  rewrite H2, H3. cbn. rewrite H4, H5. cbn. rewrite H6, H7. reflexivity.
Qed.

Lemma validate_resolved b c org w rest :
  Backend sf = Some b -> Type_ b = Some "remote" -> Config b = Some c ->
  Organization c = Some org -> Workspaces c = Some (w :: rest) ->
  Name w <> EmptyString \/ Prefix w <> EmptyString ->
  validate sf s =
    ([], Return (true,
                 {| RemoteBackend.Hostname :=
                      match Hostname c with
                      | Some h => h
                      | None => "app.terraform.io"
                      end;
                    RemoteBackend.Organization := org;
                    RemoteBackend.WorkspaceName := Name w;
                    RemoteBackend.WorkspacePrefix := Prefix w |},
                 None)).
Proof.
  intros H1 H2 H3 H4 H5 H6. unfold validate. rewrite H1. go_simpl.
  rewrite H2, H3. cbn. rewrite H4, H5. cbn.
  destruct H6 as [H6 | H6]; apply eqb_empty_false in H6; rewrite H6;
    try rewrite andb_false_r; reflexivity.
Qed.

Lemma validate_cases : validated sf (validate sf s).
Proof.
  destruct (Backend sf) as [b |] eqn:Hb.
  2: { rewrite validate_no_backend by assumption.
       now apply validated_no_backend. }
  destruct (Type_ b) as [type |] eqn:Ht.
  2: { rewrite (validate_nil_type b) by assumption.
       now apply (validated_nil_type sf b). }
  destruct (String.eqb_spec type "remote") as [-> | Hne].
  2: { rewrite (validate_not_remote b type) by assumption.
       now apply (validated_not_remote sf b). }
  destruct (Config b) as [c |] eqn:Hc.
  2: { rewrite (validate_no_config b) by assumption.
       eapply validated_invalid; eauto. cbn; tauto. }
  destruct (Organization c) as [org |] eqn:Ho.
  2: { rewrite (validate_no_organization b c) by assumption.
       eapply validated_invalid; eauto. cbn; tauto. }
  destruct (Workspaces c) as [[| w rest] |] eqn:Hw.
  1, 3: rewrite (validate_no_workspaces b c org) by auto;
        eapply validated_invalid; eauto; cbn; tauto.
  destruct (String.eqb_spec (Name w) EmptyString) as [Hn | Hn].
  - destruct (String.eqb_spec (Prefix w) EmptyString) as [Hp | Hp].
    + rewrite (validate_no_name_or_prefix b c org w rest) by assumption.
      eapply validated_invalid; eauto. cbn; tauto.
    + rewrite (validate_resolved b c org w rest) by auto.
      apply (validated_resolved sf b c org w rest); auto.
  - rewrite (validate_resolved b c org w rest) by auto.
    apply (validated_resolved sf b c org w rest); auto.
Qed.
End Validate.

#[local] Arguments validate : simpl never.
#[local] Arguments tfeWorkspaceName : simpl never.

(** View of [validate sf sf] in the goal. *)
Ltac view_validate sf :=
  destruct (validate_cases sf sf)
    as [Hb | blk Hb Ht | blk typ Hb Ht Hne | blk msg Hb Ht Hmsg
        | blk cfg organization entry entries resolved
            Hb Ht Hc Ho Hw Hnp Hresolved].

Lemma resolves_inv sf backend :
  resolves sf backend ->
  exists b c org w rest,
    Backend sf = Some b /\ Type_ b = Some "remote" /\ Config b = Some c /\
    Organization c = Some org /\ Workspaces c = Some (w :: rest) /\
    (Name w <> EmptyString \/ Prefix w <> EmptyString) /\
    backend =
      {| RemoteBackend.Hostname :=
           match Hostname c with
           | Some h => h
           | None => "app.terraform.io"
           end;
         RemoteBackend.Organization := org;
         RemoteBackend.WorkspaceName := Name w;
         RemoteBackend.WorkspacePrefix := Prefix w |}.
Proof.
  unfold resolves. view_validate sf; intros E; try discriminate E.
  injection E as <-. eauto 12.
Qed.

Lemma statefile_of_fun W path sf sf' :
  statefile_of W path sf -> statefile_of W path sf' -> sf = sf'.
Proof.
  intros (bytes & Hr & Hj) (bytes' & Hr' & Hj'). congruence.
Qed.

Lemma resolves_fun sf backend backend' :
  resolves sf backend -> resolves sf backend' -> backend = backend'.
Proof. unfold resolves. congruence. Qed.

Lemma client_ready_intro W path bytes sf backend home rcBytes obj rcFile
    hostnameConf token client :
  ReadFile W (filepath_Join W path ".terraform/terraform.tfstate") = inr bytes ->
  json_Unmarshal W bytes = inr sf ->
  validate sf sf = ([], Return (true, backend, None)) ->
  homedir_Dir W = inr home ->
  ReadFile W (filepath_Join W home ".terraformrc") = inr rcBytes ->
  hcl_Parse W rcBytes = inr obj ->
  hcl_DecodeObject W obj = inr rcFile ->
  Terraformrc.Credentials rcFile !! RemoteBackend.Hostname backend
    = Some hostnameConf ->
  hostnameConf !! "token" = Some (HString token) ->
  tfe_NewClient W token = inr client ->
  client_ready W path backend client.
Proof.
  intros. exists sf, (filepath_Join W home ".terraformrc"), token.
  repeat split; try assumption.
  - exists bytes. split; assumption.
  - exists rcFile, hostnameConf. repeat split; try assumption.
    exists home, rcBytes, obj. repeat split; assumption.
Qed.

(** Start of every proof about a whole run: read the state file, decode it,
    look at what the function literal says. *)
Ltac go_start :=
  unfold UsingRemoteOps; go_simpl;
  destruct (ReadFile _ _) as [readErr | bytes] eqn:Hread; cbn;
  [ destruct (os_IsNotExist readErr) eqn:Hnotexist; cbn
  | destruct (json_Unmarshal _ bytes) as [decodeErr | sf] eqn:Hjson; cbn;
    [ | view_validate sf; cbn ] ].

Lemma run_query_inv W ws path org n :
  In (EvWorkspacesRead org n) (events (UsingRemoteOps W ws path)) ->
  exists backend client,
    entitled W path backend client /\
    org = RemoteBackend.Organization backend /\
    n = tfeWorkspaceName backend ws.
Proof.
  go_start; try (intuition discriminate).
  pose proof (validate_resolved sf sf _ _ _ _ _ Hb Ht Hc Ho Hw Hnp) as Hv.
  rewrite <- Hresolved in Hv. clear Hresolved.
  fold (tfeWorkspaceName resolved ws).
  go_cases; try (intuition discriminate).
  all: intros HIn; decompose [or] HIn; try discriminate; try contradiction.
  all: match goal with H : EvWorkspacesRead _ _ = _ |- _ =>
         injection H as <- <- end.
  all: exists resolved; eexists; split; [ split | split; reflexivity ].
  all: try (eapply client_ready_intro; eassumption).
  all: eexists; split; [ eassumption | ].
  all: match goal with H : negb _ = false |- _ =>
         apply negb_false_iff in H; exact H end.
Qed.

(** Open the predicates that describe how far a run gets. *)
Ltac go_open :=
  repeat match goal with
         | H : entitled _ _ _ _ |- _ => destruct H as [? (? & ? & ?)]
         | H : client_ready _ _ _ _ |- _ =>
             destruct H as (? & ? & ? & ? & ? & ? & ?)
         | H : token_of _ _ _ _ |- _ => destruct H as (? & ? & ? & ? & ?)
         | H : credentials_of _ _ _ |- _ =>
             destruct H as (? & ? & ? & ? & ? & ? & ? & ?)
         | H : statefile_of _ _ _ |- _ => destruct H as (? & ? & ?)
         | H : resolves _ _ |- _ => unfold resolves in H
         end;
  subst; unfold statefilePath in *.

(** Run the function along the path the hypotheses describe. *)
Ltac go_run :=
  go_open; unfold UsingRemoteOps; go_simpl; go_rewrite.

Lemma run_not_entitled W ws path backend client e :
  client_ready W path backend client ->
  Organizations_Entitlements W client (RemoteBackend.Organization backend)
    = (Some e, None) ->
  Entitlements.Operations e = false ->
  exists t,
    UsingRemoteOps W ws path = (t, Return (false, None)) /\
    filter is_remote_call t
      = [EvEntitlements (RemoteBackend.Organization backend)].
Proof.
  intros Hready Hent Hops. go_run. rewrite Hops. cbn.
  eexists. split; reflexivity.
Qed.

Lemma run_entitled W ws path backend client :
  entitled W path backend client ->
  filter is_remote_call (events (UsingRemoteOps W ws path)) =
    [EvEntitlements (RemoteBackend.Organization backend);
     EvWorkspacesRead (RemoteBackend.Organization backend)
       (tfeWorkspaceName backend ws)] /\
  outcome (UsingRemoteOps W ws path) =
    match Workspaces_Read W client (RemoteBackend.Organization backend)
            (tfeWorkspaceName backend ws) with
    | (_, Some err) =>
        Return (false,
                Some (withMessage err
                        "calling TFE API to determine if using remote ops"))
    | (None, None) =>
        Return (false,
                Some (errors_New
                        "got nil workspace calling TFE API to determine if using remote ops"))
    | (Some tfeWorkspace, None) =>
        Return (Workspace.Operations tfeWorkspace, None)
    end.
Proof.
  intros Hent. go_run.
  match goal with H : Entitlements.Operations _ = true |- _ => rewrite H end.
  cbn. fold (tfeWorkspaceName backend ws).
  destruct (Workspaces_Read W client _ _) as [[tfeWorkspace |] [err |]]; cbn.
  all: split; reflexivity.
Qed.

Lemma statefile_of_intro W path bytes sf :
  ReadFile W (filepath_Join W path ".terraform/terraform.tfstate") = inr bytes ->
  json_Unmarshal W bytes = inr sf ->
  statefile_of W path sf.
Proof. intros Hr Hj. exists bytes. split; assumption. Qed.


Lemma tfeWorkspaceName_prefix backend ws :
  RemoteBackend.WorkspacePrefix backend <> EmptyString ->
  tfeWorkspaceName backend ws = RemoteBackend.WorkspacePrefix backend +:+ ws.
Proof.
  intros H. unfold tfeWorkspaceName. now rewrite (eqb_empty_false _ H).
Qed.

Lemma tfeWorkspaceName_exact backend ws :
  RemoteBackend.WorkspacePrefix backend = EmptyString ->
  tfeWorkspaceName backend ws = RemoteBackend.WorkspaceName backend.
Proof. intros H. unfold tfeWorkspaceName. now rewrite H. Qed.

(** The descriptor's workspace fields are those of the first entry. *)
Lemma client_ready_first_entry W path sf b c w rest backend client :
  statefile_of W path sf ->
  Backend sf = Some b -> Config b = Some c -> Workspaces c = Some (w :: rest) ->
  client_ready W path backend client ->
  RemoteBackend.WorkspaceName backend = Name w /\
  RemoteBackend.WorkspacePrefix backend = Prefix w.
Proof.
  intros Hsf Hb Hc Hw (sf' & rc & token & Hsf' & Hres & _).
  rewrite <- (statefile_of_fun _ _ _ _ Hsf Hsf') in Hres.
  destruct (resolves_inv _ _ Hres)
    as (b' & c' & org & w' & rest' & Hb' & _ & Hc' & _ & Hw' & _ & ->).
  cbn. split; congruence.
Qed.


(** What the run returns when the function literal does not resolve a
    backend. *)
Lemma run_unresolved W ws path sf t backend err :
  statefile_of W path sf ->
  validate sf sf = (t, Return (false, backend, err)) ->
  outcome (UsingRemoteOps W ws path) = Return (false, err).
Proof.
  intros Hsf Hv. go_run. destruct err; reflexivity.
Qed.

Lemma run_nil_type W ws path sf b :
  statefile_of W path sf -> Backend sf = Some b -> Type_ b = None ->
  outcome (UsingRemoteOps W ws path) = Panic nil_pointer_dereference.
Proof.
  intros Hsf Hb Ht. pose proof (validate_nil_type sf sf b Hb Ht) as Hv.
  go_run. reflexivity.
Qed.

Lemma run_token_not_string W ws path sf backend rcFilePath rcFile
    hostnameConf tokenGeneric :
  statefile_of W path sf -> resolves sf backend ->
  credentials_of W rcFilePath rcFile ->
  Terraformrc.Credentials rcFile !! RemoteBackend.Hostname backend
    = Some hostnameConf ->
  hostnameConf !! "token" = Some tokenGeneric ->
  (forall s, tokenGeneric <> HString s) ->
  outcome (UsingRemoteOps W ws path)
    = Panic (interface_conversion tokenGeneric).
Proof.
  intros Hsf Hres Hrc Hhost Htoken Hns. go_run.
  destruct tokenGeneric; try reflexivity. now destruct (Hns s).
Qed.

(** * The claims *)

(** C1: the remote workspace that is queried is named after the first
    workspace entry of the state file: its prefix followed by the caller's
    local workspace name when the prefix is non-empty, its configured name
    otherwise (whatever the local workspace name is); and a run whose
    organization is entitled does make that query. *)
Theorem effective_workspace_identifier W ws path sf b c w rest :
  statefile_of W path sf ->
  Backend sf = Some b -> Config b = Some c -> Workspaces c = Some (w :: rest) ->
  (forall org n,
      In (EvWorkspacesRead org n) (events (UsingRemoteOps W ws path)) ->
      (Prefix w <> EmptyString -> n = Prefix w +:+ ws) /\
      (Prefix w = EmptyString -> n = Name w)) /\
  (forall backend client,
      entitled W path backend client ->
      exists n,
        In (EvWorkspacesRead (RemoteBackend.Organization backend) n)
          (events (UsingRemoteOps W ws path))).
Proof.
  intros Hsf Hb Hc Hw. split.
  - intros org n HIn.
    destruct (run_query_inv _ _ _ _ _ HIn)
      as (backend & client & [Hready _] & _ & ->).
    destruct (client_ready_first_entry _ _ _ _ _ _ _ _ _ Hsf Hb Hc Hw Hready)
      as [Hname Hprefix].
    rewrite <- Hname, <- Hprefix. split; intros H.
    + now apply tfeWorkspaceName_prefix.
    + now apply tfeWorkspaceName_exact.
  - intros backend client Hent.
    destruct (run_entitled W ws path backend client Hent) as [Hcalls _].
    exists (tfeWorkspaceName backend ws).
    assert (HIn : In (EvWorkspacesRead (RemoteBackend.Organization backend)
                        (tfeWorkspaceName backend ws))
                    (filter is_remote_call (events (UsingRemoteOps W ws path)))).
    { rewrite Hcalls. cbn. tauto. }
    apply list_elem_of_In in HIn. apply list_elem_of_In.
    apply list_elem_of_filter in HIn. tauto.
Qed.

(** C2: when the entitlements query comes back with a payload whose
    [Operations] flag is false, the result is [(false, nil)] and the
    entitlements query is the only remote call of the run: the workspace API is
    not queried. *)
Theorem not_entitled_skips_workspace_query W ws path backend client e :
  client_ready W path backend client ->
  Organizations_Entitlements W client (RemoteBackend.Organization backend)
    = (Some e, None) ->
  Entitlements.Operations e = false ->
  outcome (UsingRemoteOps W ws path) = Return (false, None) /\
  filter is_remote_call (events (UsingRemoteOps W ws path))
    = [EvEntitlements (RemoteBackend.Organization backend)] /\
  (forall org n,
      ~ In (EvWorkspacesRead org n) (events (UsingRemoteOps W ws path))).
Proof.
  intros Hready Hent Hops.
  destruct (run_not_entitled W ws path _ _ _ Hready Hent Hops)
    as (t & -> & Hcalls).
  cbn. repeat split; [assumption |].
  intros org n HIn.
  assert (H : In (EvWorkspacesRead org n) (filter is_remote_call t)).
  { apply list_elem_of_In. apply list_elem_of_filter. split; [exact I |].
    now apply list_elem_of_In. }
  rewrite Hcalls in H. cbn in H. intuition discriminate.
Qed.

(** C10: when the first workspace entry has both a name and a prefix, the
    prefix wins: every workspace query of the run is for the prefix followed
    by the caller's local workspace name, and an entitled run answers with
    what the API says about that workspace; the configured name plays no
    part. *)
Theorem prefix_takes_precedence W ws path sf b c w rest :
  statefile_of W path sf ->
  Backend sf = Some b -> Config b = Some c -> Workspaces c = Some (w :: rest) ->
  Name w <> EmptyString -> Prefix w <> EmptyString ->
  (forall org n,
      In (EvWorkspacesRead org n) (events (UsingRemoteOps W ws path)) ->
      n = Prefix w +:+ ws) /\
  (forall backend client,
      entitled W path backend client ->
      filter is_remote_call (events (UsingRemoteOps W ws path)) =
        [EvEntitlements (RemoteBackend.Organization backend);
         EvWorkspacesRead (RemoteBackend.Organization backend)
           (Prefix w +:+ ws)] /\
      outcome (UsingRemoteOps W ws path) =
        match Workspaces_Read W client (RemoteBackend.Organization backend)
                (Prefix w +:+ ws) with
        | (_, Some err) =>
            Return (false,
                    Some (withMessage err
                            "calling TFE API to determine if using remote ops"))
        | (None, None) =>
            Return (false,
                    Some (errors_New
                            "got nil workspace calling TFE API to determine if using remote ops"))
        | (Some tfeWorkspace, None) =>
            Return (Workspace.Operations tfeWorkspace, None)
        end).
Proof.
  intros Hsf Hb Hc Hw Hname Hprefix. split.
  - intros org n HIn.
    destruct (run_query_inv _ _ _ _ _ HIn)
      as (backend & client & [Hready _] & _ & ->).
    destruct (client_ready_first_entry _ _ _ _ _ _ _ _ _ Hsf Hb Hc Hw Hready)
      as [_ Hp].
    rewrite <- Hp in *. now apply tfeWorkspaceName_prefix.
  - intros backend client Hent.
    destruct (client_ready_first_entry _ _ _ _ _ _ _ _ _ Hsf Hb Hc Hw
                (proj1 Hent)) as [_ Hp].
    rewrite <- Hp in *.
    rewrite <- (tfeWorkspaceName_prefix backend ws Hprefix).
    now apply run_entitled.
Qed.


(** C6: a [remote] backend without config block, without organization,
    without workspaces (absent or empty list), or whose first workspace entry
    has neither name nor prefix, makes the function return the error that
    says so; the result is never [(false, nil)]. *)
Theorem incomplete_remote_backend_is_an_error W ws path sf b :
  statefile_of W path sf ->
  Backend sf = Some b -> Type_ b = Some "remote" ->
  (Config b = None ->
   outcome (UsingRemoteOps W ws path)
     = Return (false, Some (errors_New msg_no_config))) /\
  (forall c,
      Config b = Some c ->
      (Organization c = None ->
       outcome (UsingRemoteOps W ws path)
         = Return (false, Some (errors_New msg_no_organization))) /\
      (forall org,
          Organization c = Some org ->
          (Workspaces c = None \/ Workspaces c = Some [] ->
           outcome (UsingRemoteOps W ws path)
             = Return (false, Some (errors_New msg_no_workspaces))) /\
          (forall w rest,
              Workspaces c = Some (w :: rest) ->
              Name w = EmptyString -> Prefix w = EmptyString ->
              outcome (UsingRemoteOps W ws path)
                = Return (false, Some (errors_New msg_no_name_or_prefix))))) /\
  (Config b = None \/
   (exists c,
       Config b = Some c /\
       (Organization c = None \/ Workspaces c = None \/
        Workspaces c = Some [] \/
        exists w rest,
          Workspaces c = Some (w :: rest) /\
          Name w = EmptyString /\ Prefix w = EmptyString)) ->
   exists msg,
     outcome (UsingRemoteOps W ws path) = Return (false, Some (errors_New msg)) /\
     outcome (UsingRemoteOps W ws path) <> Return (false, None)).
Proof.
  intros Hsf Hb Ht.
  assert (Hcfg : Config b = None ->
                 outcome (UsingRemoteOps W ws path)
                 = Return (false, Some (errors_New msg_no_config))).
  { intros Hc. eapply run_unresolved; [eassumption |].
    now apply (validate_no_config sf sf b). }
  assert (Horg : forall c, Config b = Some c -> Organization c = None ->
                 outcome (UsingRemoteOps W ws path)
                 = Return (false, Some (errors_New msg_no_organization))).
  { intros c Hc Ho. eapply run_unresolved; [eassumption |].
    now apply (validate_no_organization sf sf b c). }
  assert (Hwss : forall c org, Config b = Some c -> Organization c = Some org ->
                 Workspaces c = None \/ Workspaces c = Some [] ->
                 outcome (UsingRemoteOps W ws path)
                 = Return (false, Some (errors_New msg_no_workspaces))).
  { intros c org Hc Ho Hw. eapply run_unresolved; [eassumption |].
    now apply (validate_no_workspaces sf sf b c org). }
  assert (Hent : forall c org w rest,
                 Config b = Some c -> Organization c = Some org ->
                 Workspaces c = Some (w :: rest) ->
                 Name w = EmptyString -> Prefix w = EmptyString ->
                 outcome (UsingRemoteOps W ws path)
                 = Return (false, Some (errors_New msg_no_name_or_prefix))).
  { intros c org w rest Hc Ho Hw Hn Hp. eapply run_unresolved; [eassumption |].
    now apply (validate_no_name_or_prefix sf sf b c org w rest). }
  split; [exact Hcfg |]. split.
  { intros c Hc. split; [now apply Horg |]. intros org Ho. split.
    - now apply (Hwss c org).
    - intros w rest. now apply (Hent c org). }
  assert (Hsome : forall msg,
             outcome (UsingRemoteOps W ws path)
               = Return (false, Some (errors_New msg)) ->
             exists msg',
               outcome (UsingRemoteOps W ws path)
                 = Return (false, Some (errors_New msg')) /\
               outcome (UsingRemoteOps W ws path) <> Return (false, None)).
  { intros msg E. exists msg. split; [exact E |]. rewrite E. discriminate. }
  intros [Hc | (c & Hc & Hmiss)].
  { eapply Hsome. now apply Hcfg. }
  destruct (Organization c) as [org |] eqn:Ho.
  2: { eapply Hsome. now apply (Horg c). }
  destruct Hmiss as [Hx | [Hw | [Hw | (w & rest & Hw & Hn & Hp)]]].
  - discriminate Hx.
  - eapply Hsome. apply (Hwss c org); auto.
  - eapply Hsome. apply (Hwss c org); auto.
  - eapply Hsome. now apply (Hent c org w rest).
Qed.

Lemma append_EmptyString_r (s : string) : s +:+ EmptyString = s.
Proof.
  induction s as [| a s IH]; [reflexivity |].
  change (String a (s +:+ EmptyString) = String a s). now rewrite IH.
Qed.

Lemma Error_no_credentials quote hostname rcFilePath :
  Error quote
    (fmt_Errorf fmt_no_credentials [ArgString hostname; ArgString rcFilePath])
  = Some ("found no credentials config for hostname " +:+ quote hostname
          +:+ " in " +:+ quote rcFilePath).
Proof. cbn. now rewrite append_EmptyString_r. Qed.

Lemma Error_no_token quote hostname rcFilePath :
  Error quote
    (fmt_Errorf fmt_no_token [ArgString hostname; ArgString rcFilePath])
  = Some ("found no token key in config for hostname " +:+ quote hostname
          +:+ " in " +:+ quote rcFilePath).
Proof. cbn. now rewrite append_EmptyString_r. Qed.

(** C7: with a credentials file that decodes, a missing entry for the
    backend's host and an entry without [token] key each make the function
    return an error built from the host name and the path of the
    credentials file; the two messages are different, whatever the host and
    the path. *)
Theorem missing_credentials_are_distinct_errors W ws path sf backend
    rcFilePath rcFile :
  statefile_of W path sf -> resolves sf backend ->
  credentials_of W rcFilePath rcFile ->
  let hostname := RemoteBackend.Hostname backend in
  let no_credentials :=
    fmt_Errorf fmt_no_credentials [ArgString hostname; ArgString rcFilePath] in
  let no_token :=
    fmt_Errorf fmt_no_token [ArgString hostname; ArgString rcFilePath] in
  (Terraformrc.Credentials rcFile !! hostname = None ->
   outcome (UsingRemoteOps W ws path) = Return (false, Some no_credentials)) /\
  (forall hostnameConf,
      Terraformrc.Credentials rcFile !! hostname = Some hostnameConf ->
      hostnameConf !! "token" = None ->
      outcome (UsingRemoteOps W ws path) = Return (false, Some no_token)) /\
  (forall quote,
      Error quote no_credentials
        = Some ("found no credentials config for hostname " +:+ quote hostname
                +:+ " in " +:+ quote rcFilePath) /\
      Error quote no_token
        = Some ("found no token key in config for hostname " +:+ quote hostname
                +:+ " in " +:+ quote rcFilePath) /\
      Error quote no_credentials <> Error quote no_token).
Proof.
  intros Hsf Hres Hrc hostname no_credentials no_token.
  subst hostname no_credentials no_token. repeat split.
  - intros Hnone. go_run. reflexivity.
  - intros hostnameConf Hhost Htoken. go_run. reflexivity.
  - apply Error_no_credentials.
  - apply Error_no_token.
  - rewrite Error_no_credentials, Error_no_token. intros E.
    apply (f_equal (option_map (fun s => String.substring 9 1 s))) in E.
    cbn in E. discriminate E.
Qed.

(** C8: a valid [remote] backend whose config has no [hostname] resolves to
    the host [app.terraform.io], and that is the host whose credentials are
    looked up: without an entry for it the function returns the error naming
    it, and the token of its entry is the one the API client is built
    from. *)
Theorem default_hostname W ws path sf b c org w rest :
  statefile_of W path sf ->
  Backend sf = Some b -> Type_ b = Some "remote" -> Config b = Some c ->
  Organization c = Some org -> Workspaces c = Some (w :: rest) ->
  Name w <> EmptyString \/ Prefix w <> EmptyString ->
  Hostname c = None ->
  (exists backend,
      resolves sf backend /\
      RemoteBackend.Hostname backend = "app.terraform.io") /\
  (forall rcFilePath rcFile,
      credentials_of W rcFilePath rcFile ->
      (Terraformrc.Credentials rcFile !! "app.terraform.io" = None ->
       outcome (UsingRemoteOps W ws path)
         = Return (false,
                   Some (fmt_Errorf fmt_no_credentials
                           [ArgString "app.terraform.io";
                            ArgString rcFilePath]))) /\
      (forall hostnameConf token,
          Terraformrc.Credentials rcFile !! "app.terraform.io"
            = Some hostnameConf ->
          hostnameConf !! "token" = Some (HString token) ->
          In (EvNewClient token) (events (UsingRemoteOps W ws path)))).
Proof.
  intros Hsf Hb Ht Hc Ho Hw Hnp Hh.
  pose proof (validate_resolved sf sf b c org w rest Hb Ht Hc Ho Hw Hnp) as Hv.
  rewrite Hh in Hv. split.
  - eexists. split; [exact Hv | reflexivity].
  - intros rcFilePath rcFile Hrc. split.
    + intros Hnone. go_run. reflexivity.
    + intros hostnameConf token Hhost Htoken. go_run.
      destruct (tfe_NewClient W token); cbn; [tauto |].
      go_cases; tauto.
Qed.

Lemma validate_keep_first sf s s' :
  validate sf s = validate (keep_first_workspace sf) s'.
Proof.
  destruct sf as [[[type [[h o [[| w l] |]] |]] |]]; reflexivity.
Qed.

(** C9: two state files that differ only in workspace entries after the
    first give the same run (same calls, same result, same error), all other
    things being equal. *)
Theorem only_first_workspace_entry_matters W read1 unmarshal1 read2 unmarshal2
    ws path sf1 sf2 :
  statefile_of (with_files W read1 unmarshal1) path sf1 ->
  statefile_of (with_files W read2 unmarshal2) path sf2 ->
  (forall home,
      homedir_Dir W = inr home ->
      read1 (filepath_Join W home ".terraformrc")
      = read2 (filepath_Join W home ".terraformrc")) ->
  keep_first_workspace sf1 = keep_first_workspace sf2 ->
  UsingRemoteOps (with_files W read1 unmarshal1) ws path
  = UsingRemoteOps (with_files W read2 unmarshal2) ws path.
Proof.
  intros (bytes1 & Hr1 & Hj1) (bytes2 & Hr2 & Hj2) Hrc Hkeep.
  unfold statefilePath in *. cbn in Hr1, Hj1, Hr2, Hj2.
  assert (Hv : validate sf1 sf1 = validate sf2 sf2).
  { rewrite (validate_keep_first sf1 sf1 sf2), Hkeep.
    symmetry. apply validate_keep_first. }
  unfold UsingRemoteOps. go_simpl.
  rewrite Hr1, Hr2. cbn. rewrite Hj1, Hj2. cbn. rewrite Hv.
  destruct (validate sf2 sf2) as [t [[] | [[isRemote backend] err] | p]]; cbn;
    [| reflexivity].
  destruct err; cbn; [reflexivity |].
  destruct isRemote; cbn; [| reflexivity].
  destruct (homedir_Dir W) as [err | home] eqn:Hhome; cbn; [reflexivity |].
  rewrite (Hrc home eq_refl).
  go_cases; reflexivity.
Qed.

(** The runs that do not return: the two unchecked operations of the
    function. *)
Lemma run_panic_inv W ws path p :
  outcome (UsingRemoteOps W ws path) = Panic p ->
  (p = nil_pointer_dereference /\
   exists sf b,
     statefile_of W path sf /\ Backend sf = Some b /\ Type_ b = None) \/
  (exists tokenGeneric sf backend rcFilePath rcFile hostnameConf,
      p = interface_conversion tokenGeneric /\
      (forall s, tokenGeneric <> HString s) /\
      statefile_of W path sf /\ resolves sf backend /\
      credentials_of W rcFilePath rcFile /\
      Terraformrc.Credentials rcFile !! RemoteBackend.Hostname backend
        = Some hostnameConf /\
      hostnameConf !! "token" = Some tokenGeneric).
Proof.
  go_start; try discriminate.
  - intros [= <-]. left. split; [reflexivity |].
    exists sf, blk. eauto using statefile_of_intro.
  - pose proof (validate_resolved sf sf _ _ _ _ _ Hb Ht Hc Ho Hw Hnp) as Hv.
    rewrite <- Hresolved in Hv. clear Hresolved.
    fold (tfeWorkspaceName resolved ws).
    go_cases; try discriminate.
    all: intros [= <-]; right.
    all: eexists _, sf, resolved, _, _, _.
    all: split; [reflexivity |]; split; [discriminate |].
    all: split; [eauto using statefile_of_intro |]; split; [exact Hv |].
    all: split; [| split; eassumption].
    all: eexists _, _, _; repeat split; try eassumption; reflexivity.
Qed.

(** C4 (what the code does): a backend block without type makes the
    function dereference a nil pointer (line 72): it panics instead of
    returning [(false, nil)].  So it does on the state file
    [{"backend": {}}]. *)
Theorem absent_backend_type_panics :
  (forall W ws path sf b,
      statefile_of W path sf -> Backend sf = Some b -> Type_ b = None ->
      outcome (UsingRemoteOps W ws path) = Panic nil_pointer_dereference) /\
  UsingRemoteOps demoNoType "default" "/proj"
  = ([EvLog DebugLevel "reading statefile to check if using TFE remote ops" [];
      EvReadFile "/proj/.terraform/terraform.tfstate"],
     Panic nil_pointer_dereference).
Proof.
  split.
  - intros W ws path sf b. apply run_nil_type.
  - reflexivity.
Qed.

(** C3 (what the code does): a token that is not a string makes the
    unchecked type assertion of line 149 panic: the function returns no
    error.  So it does when the token of the backend's host is the number
    123. *)
Theorem non_text_token_panics :
  (forall W ws path sf backend rcFilePath rcFile hostnameConf tokenGeneric,
      statefile_of W path sf -> resolves sf backend ->
      credentials_of W rcFilePath rcFile ->
      Terraformrc.Credentials rcFile !! RemoteBackend.Hostname backend
        = Some hostnameConf ->
      hostnameConf !! "token" = Some tokenGeneric ->
      (forall s, tokenGeneric <> HString s) ->
      outcome (UsingRemoteOps W ws path)
        = Panic (interface_conversion tokenGeneric)) /\
  outcome (UsingRemoteOps demoNumericToken "default" "/proj")
  = Panic (interface_conversion (HInt 123)).
Proof.
  split.
  - intros W ws path sf backend rcFilePath rcFile hostnameConf tokenGeneric.
    apply run_token_not_string.
  - reflexivity.
Qed.

Example prefixed_workspace_run :
  UsingRemoteOps (demoEntitled [prefixedEntry]) "prod" "/proj"
  = ([EvLog DebugLevel "reading statefile to check if using TFE remote ops" [];
      EvReadFile "/proj/.terraform/terraform.tfstate";
      EvLog DebugLevel fmt_determined
        [ArgString "app.terraform.io"; ArgString "acme";
         ArgString EmptyString; ArgString "my-"];
      EvLog DebugLevel "retrieving TFE token from .terraformrc file" [];
      EvHomeDir;
      EvReadFile "/home/atlantis/.terraformrc";
      EvLog DebugLevel "successfully found token for hostname %q"
        [ArgString "app.terraform.io"];
      EvLog DebugLevel "calling TFE API to determine entitlements" [];
      EvNewClient "secret";
      EvEntitlements "acme";
      EvLog DebugLevel fmt_entitled [ArgString "acme"; ArgString "my-prod"];
      EvWorkspacesRead "acme" "my-prod";
      EvLog DebugLevel "workspace %q has remote ops set to %t"
        [ArgString "my-prod"; ArgBool true]],
     Return (true, None)).
Proof. reflexivity. Qed.

Example exact_workspace_run (ws : string) :
  filter is_remote_call
    (events (UsingRemoteOps (demoEntitled [exactEntry]) ws "/proj"))
  = [EvEntitlements "acme"; EvWorkspacesRead "acme" "exact"] /\
  outcome (UsingRemoteOps (demoEntitled [exactEntry]) ws "/proj")
  = Return (false, None).
Proof. split; reflexivity. Qed.

Lemma demo_statefile_of decoded creds ent wss :
  statefile_of (demoWorld (inr decoded) creds ent wss) "/proj" decoded.
Proof. exists "state". split; reflexivity. Defined.

Lemma demo_credentials_of decoded creds ent wss :
  credentials_of (demoWorld decoded creds ent wss) "/home/atlantis/.terraformrc"
    {| Terraformrc.Credentials := creds |}.
Proof.
  exists "/home/atlantis", "rc", tt. repeat split; reflexivity.
Defined.

Lemma demo_client_ready w rest ent wss :
  Name w <> EmptyString \/ Prefix w <> EmptyString ->
  client_ready
    (demoWorld (inr (remoteState None (w :: rest)))
       (demoCredentials (HString "secret")) ent wss)
    "/proj" (demoBackend w) "secret".
Proof.
  intros Hnp.
  exists (remoteState None (w :: rest)), "/home/atlantis/.terraformrc", "secret".
  split; [apply demo_statefile_of |]. split.
  - exact (validate_resolved (remoteState None (w :: rest)) _
             (remoteBlock None (w :: rest)) (remoteConfig None (w :: rest))
             "acme" w rest eq_refl eq_refl eq_refl eq_refl eq_refl Hnp).
  - split; [| reflexivity].
    eexists _, _. split; [apply demo_credentials_of |].
    split; reflexivity.
Defined.

Lemma effective_workspace_identifier_witness :
  (forall org n,
      In (EvWorkspacesRead org n)
        (events (UsingRemoteOps (demoEntitled [prefixedEntry; exactEntry])
                   "prod" "/proj")) ->
      (Prefix prefixedEntry <> EmptyString -> n = "my-" +:+ "prod") /\
      (Prefix prefixedEntry = EmptyString -> n = Name prefixedEntry)) /\
  (forall backend client,
      entitled (demoEntitled [prefixedEntry; exactEntry]) "/proj" backend client ->
      exists n,
        In (EvWorkspacesRead (RemoteBackend.Organization backend) n)
          (events (UsingRemoteOps (demoEntitled [prefixedEntry; exactEntry])
                     "prod" "/proj"))).
Proof.
  apply (effective_workspace_identifier
           (demoEntitled [prefixedEntry; exactEntry]) "prod" "/proj"
           (remoteState None [prefixedEntry; exactEntry])
           (remoteBlock None [prefixedEntry; exactEntry])
           (remoteConfig None [prefixedEntry; exactEntry])
           prefixedEntry [exactEntry]).
  - apply demo_statefile_of.
  - reflexivity.
  - reflexivity.
  - reflexivity.
Defined.

Lemma not_entitled_skips_workspace_query_witness :
  outcome (UsingRemoteOps demoNotEntitled "prod" "/proj") = Return (false, None) /\
  filter is_remote_call (events (UsingRemoteOps demoNotEntitled "prod" "/proj"))
    = [EvEntitlements "acme"] /\
  (forall org n,
      ~ In (EvWorkspacesRead org n)
          (events (UsingRemoteOps demoNotEntitled "prod" "/proj"))).
Proof.
  apply (not_entitled_skips_workspace_query demoNotEntitled "prod" "/proj"
           (demoBackend prefixedEntry) "secret"
           {| Entitlements.Operations := false |}).
  - apply demo_client_ready. right. discriminate.
  - reflexivity.
  - reflexivity.
Defined.

Example both_name_and_prefix_run :
  filter is_remote_call
    (events (UsingRemoteOps (demoEntitled [bothEntry]) "prod" "/proj"))
  = [EvEntitlements "acme"; EvWorkspacesRead "acme" "my-prod"] /\
  outcome (UsingRemoteOps (demoEntitled [bothEntry]) "prod" "/proj")
  = Return (true, None).
Proof. split; reflexivity. Qed.

Lemma prefix_takes_precedence_witness :
  (forall org n,
      In (EvWorkspacesRead org n)
        (events (UsingRemoteOps (demoEntitled [bothEntry]) "prod" "/proj")) ->
      n = "my-prod") /\
  (forall backend client,
      entitled (demoEntitled [bothEntry]) "/proj" backend client ->
      filter is_remote_call
        (events (UsingRemoteOps (demoEntitled [bothEntry]) "prod" "/proj")) =
        [EvEntitlements (RemoteBackend.Organization backend);
         EvWorkspacesRead (RemoteBackend.Organization backend) "my-prod"] /\
      outcome (UsingRemoteOps (demoEntitled [bothEntry]) "prod" "/proj") =
        match Workspaces_Read (demoEntitled [bothEntry]) client
                (RemoteBackend.Organization backend) "my-prod" with
        | (_, Some err) =>
            Return (false,
                    Some (withMessage err
                            "calling TFE API to determine if using remote ops"))
        | (None, None) =>
            Return (false,
                    Some (errors_New
                            "got nil workspace calling TFE API to determine if using remote ops"))
        | (Some tfeWorkspace, None) =>
            Return (Workspace.Operations tfeWorkspace, None)
        end).
Proof.
  apply (prefix_takes_precedence (demoEntitled [bothEntry]) "prod" "/proj"
           (remoteState None [bothEntry]) (remoteBlock None [bothEntry])
           (remoteConfig None [bothEntry]) bothEntry []).
  - apply demo_statefile_of.
  - reflexivity.
  - reflexivity.
  - reflexivity.
  - discriminate.
  - discriminate.
Defined.


Lemma incomplete_remote_backend_is_an_error_witness :
  outcome (UsingRemoteOps demoNoOrganization "prod" "/proj")
  = Return (false, Some (errors_New msg_no_organization)).
Proof.
  eapply (incomplete_remote_backend_is_an_error demoNoOrganization "prod"
            "/proj").
  - apply demo_statefile_of.
  - reflexivity.
  - reflexivity.
  - reflexivity.
  - reflexivity.
Defined.

Lemma missing_credentials_are_distinct_errors_witness :
  outcome (UsingRemoteOps (demoWithCredentials ∅) "prod" "/proj")
  = Return (false,
            Some (fmt_Errorf fmt_no_credentials
                    [ArgString "app.terraform.io";
                     ArgString "/home/atlantis/.terraformrc"])) /\
  outcome (UsingRemoteOps (demoWithCredentials {[ "app.terraform.io" := ∅ ]})
             "prod" "/proj")
  = Return (false,
            Some (fmt_Errorf fmt_no_token
                    [ArgString "app.terraform.io";
                     ArgString "/home/atlantis/.terraformrc"])).
Proof.
  split.
  - apply (missing_credentials_are_distinct_errors (demoWithCredentials ∅)
             "prod" "/proj" (remoteState None [prefixedEntry])
             (demoBackend prefixedEntry) "/home/atlantis/.terraformrc"
             {| Terraformrc.Credentials := ∅ |}).
    + apply demo_statefile_of.
    + reflexivity.
    + apply demo_credentials_of.
    + reflexivity.
  - eapply (missing_credentials_are_distinct_errors
              (demoWithCredentials {[ "app.terraform.io" := ∅ ]})
              "prod" "/proj" (remoteState None [prefixedEntry])
              (demoBackend prefixedEntry) "/home/atlantis/.terraformrc"
              {| Terraformrc.Credentials := {[ "app.terraform.io" := ∅ ]} |}).
    + apply demo_statefile_of.
    + reflexivity.
    + apply demo_credentials_of.
    + reflexivity.
    + reflexivity.
Defined.

Lemma default_hostname_witness :
  (exists backend,
      resolves (remoteState None [prefixedEntry]) backend /\
      RemoteBackend.Hostname backend = "app.terraform.io") /\
  In (EvNewClient "secret")
    (events (UsingRemoteOps (demoEntitled [prefixedEntry]) "prod" "/proj")).
Proof.
  edestruct (default_hostname (demoEntitled [prefixedEntry]) "prod" "/proj"
               (remoteState None [prefixedEntry])
               (remoteBlock None [prefixedEntry])
               (remoteConfig None [prefixedEntry]) "acme" prefixedEntry [])
    as [Hres Hlookup].
  - apply demo_statefile_of.
  - reflexivity.
  - reflexivity.
  - reflexivity.
  - reflexivity.
  - reflexivity.
  - right. discriminate.
  - reflexivity.
  - split; [exact Hres |].
    destruct (Hlookup _ _ (demo_credentials_of _ _ _ _)) as [_ Htoken].
    apply (Htoken {[ "token" := HString "secret" ]}); reflexivity.
Defined.

Lemma only_first_workspace_entry_matters_witness :
  UsingRemoteOps
    (with_files (demoEntitled []) (ReadFile (demoEntitled []))
       (fun _ => inr (remoteState None [prefixedEntry; exactEntry])))
    "prod" "/proj"
  = UsingRemoteOps
      (with_files (demoEntitled []) (ReadFile (demoEntitled []))
         (fun _ => inr (remoteState None [prefixedEntry; bothEntry; emptyEntry])))
      "prod" "/proj".
Proof.
  apply (only_first_workspace_entry_matters (demoEntitled []) _ _ _ _
           "prod" "/proj"
           (remoteState None [prefixedEntry; exactEntry])
           (remoteState None [prefixedEntry; bothEntry; emptyEntry])).
  - exists "state". split; reflexivity.
  - exists "state". split; reflexivity.
  - intros home _. reflexivity.
  - reflexivity.
Defined.

(** * Further properties of the function *)

(** X1: a state file that cannot be read for another reason than its absence
    ends the run at once: the read error is returned as it is, and nothing
    but the state file was touched. *)
Theorem statefile_read_error_is_returned W ws path err :
  ReadFile W (statefilePath W path) = inl err ->
  os_IsNotExist err = false ->
  UsingRemoteOps W ws path
  = ([EvLog DebugLevel "reading statefile to check if using TFE remote ops" [];
      EvReadFile (statefilePath W path)],
     Return (false, Some err)).
Proof.
  intros Hread Hne. unfold statefilePath in *.
  unfold UsingRemoteOps. go_simpl. rewrite Hread. cbn. rewrite Hne.
  reflexivity.
Qed.

Lemma statefile_read_error_is_returned_witness :
  outcome (UsingRemoteOps demoUnreadableState "prod" "/proj")
  = Return (false, Some permissionDenied).
Proof.
  rewrite (statefile_read_error_is_returned demoUnreadableState "prod" "/proj"
             permissionDenied); reflexivity.
Defined.

(** X2: a state file that does not decode ends the run at once with the
    decoder's error, unwrapped; the home directory, the credentials file and
    the API are not touched. *)
Theorem statefile_decode_error_is_returned W ws path bytes err :
  ReadFile W (statefilePath W path) = inr bytes ->
  json_Unmarshal W bytes = inl err ->
  UsingRemoteOps W ws path
  = ([EvLog DebugLevel "reading statefile to check if using TFE remote ops" [];
      EvReadFile (statefilePath W path)],
     Return (false, Some err)).
Proof.
  intros Hread Hjson. unfold statefilePath in *.
  unfold UsingRemoteOps. go_simpl. rewrite Hread. cbn. rewrite Hjson.
  reflexivity.
Qed.

Lemma statefile_decode_error_is_returned_witness :
  outcome (UsingRemoteOps demoUndecodableState "prod" "/proj")
  = Return (false, Some syntaxError).
Proof.
  rewrite (statefile_decode_error_is_returned demoUndecodableState "prod"
             "/proj" "state" syntaxError); reflexivity.
Defined.

(** X3: once the backend is resolved, each failure on the way to the
    credentials is returned wrapped with the stage it happened in: the home
    directory lookup and the read of the credentials file (a missing file
    included: unlike the state file, its absence is an error) under
    [retrieving token from .terraformrc file], the parser under [parsing ...],
    the decoder under [decoding ...].  No API client is built and no remote
    call is made. *)
Theorem credentials_stage_errors_are_wrapped W ws path sf backend :
  statefile_of W path sf -> resolves sf backend ->
  let run := UsingRemoteOps W ws path in
  (forall err,
      homedir_Dir W = inl err ->
      filter is_call (events run) = [EvReadFile (statefilePath W path); EvHomeDir] /\
      outcome run
      = Return (false,
                Some (withMessage err "retrieving token from .terraformrc file"))) /\
  (forall home,
      homedir_Dir W = inr home ->
      let rcFilePath := filepath_Join W home ".terraformrc" in
      (forall err,
          ReadFile W rcFilePath = inl err ->
          filter is_call (events run)
          = [EvReadFile (statefilePath W path); EvHomeDir; EvReadFile rcFilePath] /\
          outcome run
          = Return (false,
                    Some (withMessage err
                            "retrieving token from .terraformrc file"))) /\
      (forall bytes,
          ReadFile W rcFilePath = inr bytes ->
          (forall err,
              hcl_Parse W bytes = inl err ->
              filter is_call (events run)
              = [EvReadFile (statefilePath W path); EvHomeDir;
                 EvReadFile rcFilePath] /\
              outcome run
              = Return (false,
                        Some (withMessage err
                                "parsing .terraformrc file to retrieve TFE token"))) /\
          (forall obj err,
              hcl_Parse W bytes = inr obj ->
              hcl_DecodeObject W obj = inl err ->
              filter is_call (events run)
              = [EvReadFile (statefilePath W path); EvHomeDir;
                 EvReadFile rcFilePath] /\
              outcome run
              = Return (false,
                        Some (withMessage err
                                "decoding .terraformrc file to retrieve TFE token"))))).
Proof.
  intros Hsf Hres run. subst run. split.
  - intros err Hhome. go_run. split; reflexivity.
  - intros home Hhome rcFilePath. subst rcFilePath. split.
    + intros err Hrc. go_run. split; reflexivity.
    + intros bytes Hrc. split.
      * intros err Hparse. go_run. split; reflexivity.
      * intros obj err Hparse Hdecode. go_run. split; reflexivity.
Qed.

Lemma credentials_stage_errors_are_wrapped_witness :
  outcome (UsingRemoteOps demoNoCredentialsFile "prod" "/proj")
  = Return (false,
            Some (withMessage (lib_error true "no such file or directory")
                    "retrieving token from .terraformrc file")).
Proof.
  assert (H := credentials_stage_errors_are_wrapped demoNoCredentialsFile
                 "prod" "/proj" (remoteState None [prefixedEntry])
                 (demoBackend prefixedEntry)
                 (ex_intro _ "state" (conj eq_refl eq_refl)) eq_refl).
  destruct H as [_ H].
  destruct (H "/home/atlantis" eq_refl) as [Hread _].
  exact (proj2 (Hread _ eq_refl)).
Defined.

(** X4: when the API client cannot be built from the token, the error is
    returned wrapped with [creating TFE API client ...] and no remote call is
    made. *)
Theorem client_error_is_wrapped W ws path sf backend rcFilePath token err :
  statefile_of W path sf -> resolves sf backend ->
  token_of W backend rcFilePath token ->
  tfe_NewClient W token = inl err ->
  filter is_remote_call (events (UsingRemoteOps W ws path)) = [] /\
  In (EvNewClient token) (events (UsingRemoteOps W ws path)) /\
  outcome (UsingRemoteOps W ws path)
  = Return (false,
            Some (withMessage err
                    "creating TFE API client to determine if using remote ops")).
Proof.
  intros Hsf Hres Htoken Hclient. go_run.
  split; [reflexivity |]. split; [cbn; tauto | reflexivity].
Qed.

Lemma client_error_is_wrapped_witness :
  outcome (UsingRemoteOps
             (with_client_error (demoEntitled [prefixedEntry])
                (lib_error false "invalid address"))
             "prod" "/proj")
  = Return (false,
            Some (withMessage (lib_error false "invalid address")
                    "creating TFE API client to determine if using remote ops")).
Proof.
  eapply (client_error_is_wrapped
            (with_client_error (demoEntitled [prefixedEntry])
               (lib_error false "invalid address"))
            "prod" "/proj" (remoteState None [prefixedEntry])
            (demoBackend prefixedEntry) "/home/atlantis/.terraformrc" "secret").
  - exists "state". split; reflexivity.
  - reflexivity.
  - exists {| Terraformrc.Credentials := demoCredentials (HString "secret") |},
      {[ "token" := HString "secret" ]}.
    split; [| split; reflexivity].
    exists "/home/atlantis", "rc", tt. repeat split; reflexivity.
  - reflexivity.
Defined.

(** X5: a failing entitlements query ends the run with the wrapped error,
    whatever payload came with it; an answer without payload and without
    error ends it with the error [got nil entitlements ...].  In both cases the
    entitlements query is the only remote call. *)
Theorem entitlements_failures W ws path backend client :
  client_ready W path backend client ->
  let run := UsingRemoteOps W ws path in
  let answer :=
    Organizations_Entitlements W client (RemoteBackend.Organization backend) in
  (forall payload err,
      answer = (payload, Some err) ->
      filter is_remote_call (events run)
      = [EvEntitlements (RemoteBackend.Organization backend)] /\
      outcome run
      = Return (false,
                Some (withMessage err
                        "calling TFE API to determine if using remote ops"))) /\
  (answer = (None, None) ->
   filter is_remote_call (events run)
   = [EvEntitlements (RemoteBackend.Organization backend)] /\
   outcome run
   = Return (false,
             Some (errors_New
                     "got nil entitlements calling TFE API to determine if using remote ops"))).
Proof.
  intros Hready run answer. subst run answer. split.
  - intros payload err Hanswer. go_run. split; reflexivity.
  - intros Hanswer. go_run. split; reflexivity.
Qed.

Lemma entitlements_failures_witness :
  outcome (UsingRemoteOps demoEntitlementsDown "prod" "/proj")
  = Return (false,
            Some (withMessage (lib_error false "unauthorized")
                    "calling TFE API to determine if using remote ops")).
Proof.
  assert (Hready : client_ready demoEntitlementsDown "/proj"
                     (demoBackend prefixedEntry) "secret").
  { apply demo_client_ready. right. discriminate. }
  destruct (entitlements_failures demoEntitlementsDown "prod" "/proj"
              (demoBackend prefixedEntry) "secret" Hready) as [H _].
  exact (proj2 (H _ _ eq_refl)).
Defined.

(** X6: for an entitled organization the answer of the workspace query
    decides: an error is returned wrapped, an answer without workspace and
    without error is the error [got nil workspace ...], and a workspace gives
    its [Operations] flag, true or false, without error.  The remote calls of
    the run are the entitlements query and that one workspace query. *)
Theorem workspace_answer_decides W ws path backend client :
  entitled W path backend client ->
  let run := UsingRemoteOps W ws path in
  let answer :=
    Workspaces_Read W client (RemoteBackend.Organization backend)
      (tfeWorkspaceName backend ws) in
  filter is_remote_call (events run)
  = [EvEntitlements (RemoteBackend.Organization backend);
     EvWorkspacesRead (RemoteBackend.Organization backend)
       (tfeWorkspaceName backend ws)] /\
  (forall payload err,
      answer = (payload, Some err) ->
      outcome run
      = Return (false,
                Some (withMessage err
                        "calling TFE API to determine if using remote ops"))) /\
  (answer = (None, None) ->
   outcome run
   = Return (false,
             Some (errors_New
                     "got nil workspace calling TFE API to determine if using remote ops"))) /\
  (forall tfeWorkspace,
      answer = (Some tfeWorkspace, None) ->
      outcome run = Return (Workspace.Operations tfeWorkspace, None)).
Proof.
  intros Hent run answer. subst run answer.
  destruct (run_entitled W ws path backend client Hent) as [Hcalls Hout].
  split; [exact Hcalls |]. rewrite Hout.
  repeat split.
  - intros payload err ->. destruct payload; reflexivity.
  - intros ->. reflexivity.
  - intros tfeWorkspace ->. reflexivity.
Qed.

Lemma workspace_answer_decides_witness :
  outcome (UsingRemoteOps (demoEntitled [prefixedEntry]) "prod" "/proj")
  = Return (true, None) /\
  outcome (UsingRemoteOps (demoEntitled [prefixedEntry]) "staging" "/proj")
  = Return (false, None).
Proof.
  assert (Hent : entitled (demoEntitled [prefixedEntry]) "/proj"
                   (demoBackend prefixedEntry) "secret").
  { split.
    - apply demo_client_ready. right. discriminate.
    - exists {| Entitlements.Operations := true |}. split; reflexivity. }
  split.
  - destruct (workspace_answer_decides (demoEntitled [prefixedEntry]) "prod"
                "/proj" (demoBackend prefixedEntry) "secret" Hent)
      as (_ & _ & _ & H).
    exact (H {| Workspace.Operations := true |} eq_refl).
  - destruct (workspace_answer_decides (demoEntitled [prefixedEntry]) "staging"
                "/proj" (demoBackend prefixedEntry) "secret" Hent)
      as (_ & _ & _ & H).
    exact (H {| Workspace.Operations := false |} eq_refl).
Defined.

(** X7: the home directory is looked up, and so the credentials file read,
    only for a state file that resolves to a remote backend. *)
Theorem credentials_read_only_for_remote_backend W ws path :
  In EvHomeDir (events (UsingRemoteOps W ws path)) ->
  exists sf backend, statefile_of W path sf /\ resolves sf backend.
Proof.
  go_start; try (intuition discriminate).
  pose proof (validate_resolved sf sf _ _ _ _ _ Hb Ht Hc Ho Hw Hnp) as Hv.
  rewrite <- Hresolved in Hv. intros _.
  exists sf, resolved. eauto using statefile_of_intro.
Qed.

Lemma credentials_read_only_for_remote_backend_witness :
  exists sf backend,
    statefile_of (demoEntitled [prefixedEntry]) "/proj" sf /\
    resolves sf backend.
Proof.
  apply (credentials_read_only_for_remote_backend
           (demoEntitled [prefixedEntry]) "prod" "/proj").
  vm_compute. repeat (first [left; reflexivity | right]).
Defined.

(** X8: an API client is only ever built from the textual token that the
    credentials file holds for the host of the resolved backend. *)
Theorem client_built_from_the_hosts_token W ws path token :
  In (EvNewClient token) (events (UsingRemoteOps W ws path)) ->
  exists sf backend rcFilePath,
    statefile_of W path sf /\ resolves sf backend /\
    token_of W backend rcFilePath token.
Proof.
  go_start; try (intuition discriminate).
  pose proof (validate_resolved sf sf _ _ _ _ _ Hb Ht Hc Ho Hw Hnp) as Hv.
  rewrite <- Hresolved in Hv. clear Hresolved.
  fold (tfeWorkspaceName resolved ws).
  go_cases; try (intuition discriminate).
  all: intros HIn; decompose [or] HIn; try discriminate; try contradiction.
  all: match goal with H : EvNewClient _ = _ |- _ => injection H as <- end.
  all: exists sf, resolved; eexists.
  all: split; [eauto using statefile_of_intro |]; split; [exact Hv |].
  all: eexists _, _; split; [| split; eassumption].
  all: eexists _, _, _; repeat split; try eassumption; reflexivity.
Qed.

Lemma client_built_from_the_hosts_token_witness :
  exists sf backend rcFilePath,
    statefile_of (demoEntitled [prefixedEntry]) "/proj" sf /\
    resolves sf backend /\
    token_of (demoEntitled [prefixedEntry]) backend rcFilePath "secret".
Proof.
  apply (client_built_from_the_hosts_token (demoEntitled [prefixedEntry])
           "prod" "/proj" "secret").
  vm_compute. repeat (first [left; reflexivity | right]).
Defined.

(** X9: the entitlements of an organization are only queried with a client
    in hand, and the organization asked about is the one of the resolved
    backend. *)
Theorem entitlements_queried_for_the_backends_organization W ws path org :
  In (EvEntitlements org) (events (UsingRemoteOps W ws path)) ->
  exists backend client,
    client_ready W path backend client /\
    org = RemoteBackend.Organization backend.
Proof.
  go_start; try (intuition discriminate).
  pose proof (validate_resolved sf sf _ _ _ _ _ Hb Ht Hc Ho Hw Hnp) as Hv.
  rewrite <- Hresolved in Hv. clear Hresolved.
  fold (tfeWorkspaceName resolved ws).
  go_cases; try (intuition discriminate).
  all: intros HIn; decompose [or] HIn; try discriminate; try contradiction.
  all: match goal with H : EvEntitlements _ = _ |- _ => injection H as <- end.
  all: exists resolved; eexists; split; [| reflexivity].
  all: eapply client_ready_intro; eassumption.
Qed.

Lemma entitlements_queried_for_the_backends_organization_witness :
  exists backend client,
    client_ready demoNotEntitled "/proj" backend client /\
    "acme" = RemoteBackend.Organization backend.
Proof.
  apply (entitlements_queried_for_the_backends_organization demoNotEntitled
           "prod" "/proj" "acme").
  vm_compute. repeat (first [left; reflexivity | right]).
Defined.

(** X10: whatever happens, the calls of a run are made in one fixed order and
    each at most once: state file, home directory, credentials file, client,
    entitlements, workspace.  A run stops somewhere along that list. *)
Theorem calls_follow_the_stages W ws path :
  exists home token org name,
    filter is_call (events (UsingRemoteOps W ws path))
    `prefix_of`
    [EvReadFile (statefilePath W path);
     EvHomeDir;
     EvReadFile (filepath_Join W home ".terraformrc");
     EvNewClient token;
     EvEntitlements org;
     EvWorkspacesRead org name].
Proof.
  unfold statefilePath.
  enough (H : forall l,
             events (UsingRemoteOps W ws path) = l ->
             exists home token org name,
               filter is_call l
               `prefix_of`
               [EvReadFile (filepath_Join W path ".terraform/terraform.tfstate");
                EvHomeDir;
                EvReadFile (filepath_Join W home ".terraformrc");
                EvNewClient token;
                EvEntitlements org;
                EvWorkspacesRead org name])
    by (apply H; reflexivity).
  intros l. go_start.
  all: go_cases.
  all: intros <-.
  all: unshelve (eexists _, _, _, _; eexists; reflexivity); exact EmptyString.
Qed.

(** X11: the function panics in exactly two situations: the backend block of
    the state file has no type (nil pointer dereference), or the token found
    for the backend's host is not a string (interface conversion).  The index
    into the workspace list is always in range. *)
Theorem panics_exactly_at_the_unchecked_operations W ws path p :
  outcome (UsingRemoteOps W ws path) = Panic p <->
  (p = nil_pointer_dereference /\
   exists sf b,
     statefile_of W path sf /\ Backend sf = Some b /\ Type_ b = None) \/
  (exists tokenGeneric sf backend rcFilePath rcFile hostnameConf,
      p = interface_conversion tokenGeneric /\
      (forall s, tokenGeneric <> HString s) /\
      statefile_of W path sf /\ resolves sf backend /\
      credentials_of W rcFilePath rcFile /\
      Terraformrc.Credentials rcFile !! RemoteBackend.Hostname backend
        = Some hostnameConf /\
      hostnameConf !! "token" = Some tokenGeneric).
Proof.
  split.
  - apply run_panic_inv.
  - intros [(-> & sf & b & Hsf & Hb & Ht)
           | (v & sf & backend & rcFilePath & rcFile & hostnameConf
              & -> & Hns & Hsf & Hres & Hrc & Hhost & Htoken)].
    + now apply (run_nil_type W ws path sf b).
    + now apply (run_token_not_string W ws path sf backend rcFilePath rcFile
                   hostnameConf v).
Qed.

(** X12: the function literal says [true] only together with a complete
    descriptor and no error: the backend is of type [remote], the
    organization is the configured one, the workspace fields are those of
    the first entry and not both empty, the host is the configured one or
    [app.terraform.io]; it logs nothing then.  When it says [false] the
    descriptor is the zero value. *)
Theorem descriptor_invariant sf s t isRemote backend err :
  validate sf s = (t, Return (isRemote, backend, err)) ->
  if isRemote then
    t = [] /\ err = None /\
    exists b c org w rest,
      Backend sf = Some b /\ Type_ b = Some "remote" /\ Config b = Some c /\
      Organization c = Some org /\ Workspaces c = Some (w :: rest) /\
      RemoteBackend.Organization backend = org /\
      RemoteBackend.WorkspaceName backend = Name w /\
      RemoteBackend.WorkspacePrefix backend = Prefix w /\
      (RemoteBackend.WorkspaceName backend <> EmptyString \/
       RemoteBackend.WorkspacePrefix backend <> EmptyString) /\
      RemoteBackend.Hostname backend
      = match Hostname c with
        | Some h => h
        | None => "app.terraform.io"
        end
  else backend = RemoteBackend.zero.
Proof.
  destruct (validate_cases sf s)
    as [Hb | b Hb Ht | b type Hb Ht Hne | b msg Hb Ht Hmsg
        | b c org w rest backend' Hb Ht Hc Ho Hw Hnp ->];
    intros E; try discriminate E; injection E as <- <- <- <-;
    try reflexivity.
  split; [reflexivity |]. split; [reflexivity |].
  exists b, c, org, w, rest. cbn. repeat split; assumption.
Qed.

Lemma descriptor_invariant_witness :
  [] = ([] : list event) /\ None = (None : option error) /\
  exists b c org w rest,
    Backend (remoteState (Some "tfe.example.com") [bothEntry; emptyEntry])
      = Some b /\
    Type_ b = Some "remote" /\ Config b = Some c /\
    Organization c = Some org /\ Workspaces c = Some (w :: rest) /\
    "acme" = org /\ "exact" = Name w /\ "my-" = Prefix w /\
    ("exact" <> EmptyString \/ "my-" <> EmptyString) /\
    "tfe.example.com"
    = match Hostname c with
      | Some h => h
      | None => "app.terraform.io"
      end.
Proof.
  exact (descriptor_invariant
           (remoteState (Some "tfe.example.com") [bothEntry; emptyEntry])
           (remoteState None []) [] true
           {| RemoteBackend.Hostname := "tfe.example.com";
              RemoteBackend.Organization := "acme";
              RemoteBackend.WorkspaceName := "exact";
              RemoteBackend.WorkspacePrefix := "my-" |}
           None eq_refl).
Defined.

(** X13: a host name given in the backend config is used as it is, the
    empty one included: the credentials are looked up under it and not under
    [app.terraform.io]. *)
Theorem configured_hostname_is_used W ws path sf b c org w rest hostname :
  statefile_of W path sf ->
  Backend sf = Some b -> Type_ b = Some "remote" -> Config b = Some c ->
  Organization c = Some org -> Workspaces c = Some (w :: rest) ->
  Name w <> EmptyString \/ Prefix w <> EmptyString ->
  Hostname c = Some hostname ->
  forall rcFilePath rcFile,
    credentials_of W rcFilePath rcFile ->
    (Terraformrc.Credentials rcFile !! hostname = None ->
     outcome (UsingRemoteOps W ws path)
     = Return (false,
               Some (fmt_Errorf fmt_no_credentials
                       [ArgString hostname; ArgString rcFilePath]))) /\
    (forall hostnameConf token,
        Terraformrc.Credentials rcFile !! hostname = Some hostnameConf ->
        hostnameConf !! "token" = Some (HString token) ->
        In (EvNewClient token) (events (UsingRemoteOps W ws path))).
Proof.
  intros Hsf Hb Ht Hc Ho Hw Hnp Hh rcFilePath rcFile Hrc.
  pose proof (validate_resolved sf sf b c org w rest Hb Ht Hc Ho Hw Hnp) as Hv.
  rewrite Hh in Hv. split.
  - intros Hnone. go_run. reflexivity.
  - intros hostnameConf token Hhost Htoken. go_run.
    destruct (tfe_NewClient W token); cbn; [tauto |].
    go_cases; tauto.
Qed.

Lemma configured_hostname_is_used_witness :
  outcome (UsingRemoteOps (demoOwnHost (demoCredentials (HString "secret")))
             "prod" "/proj")
  = Return (false,
            Some (fmt_Errorf fmt_no_credentials
                    [ArgString "tfe.example.com";
                     ArgString "/home/atlantis/.terraformrc"])).
Proof.
  edestruct (configured_hostname_is_used
               (demoOwnHost (demoCredentials (HString "secret"))) "prod" "/proj"
               (remoteState (Some "tfe.example.com") [prefixedEntry])
               (remoteBlock (Some "tfe.example.com") [prefixedEntry])
               (remoteConfig (Some "tfe.example.com") [prefixedEntry])
               "acme" prefixedEntry [] "tfe.example.com")
    as [Hmissing _].
  - apply demo_statefile_of.
  - reflexivity.
  - reflexivity.
  - reflexivity.
  - reflexivity.
  - reflexivity.
  - right. discriminate.
  - reflexivity.
  - apply demo_credentials_of.
  - apply Hmissing. reflexivity.
Defined.

(** X14: of the credentials file the function uses nothing but the [token]
    of the entry for the host of the resolved backend: two decodings that
    agree on whether that host has an entry and on what the entry holds under
    [token] give the same run, whatever else they hold for that host or for
    other hosts. *)
Theorem only_the_hosts_token_matters W decode1 decode2 ws path :
  (forall obj,
      match decode1 obj, decode2 obj with
      | inl err1, inl err2 => err1 = err2
      | inr rcFile1, inr rcFile2 =>
          forall sf backend,
            statefile_of W path sf -> resolves sf backend ->
            token_entry rcFile1 (RemoteBackend.Hostname backend)
            = token_entry rcFile2 (RemoteBackend.Hostname backend)
      | _, _ => False
      end) ->
  UsingRemoteOps (with_credentials W decode1) ws path
  = UsingRemoteOps (with_credentials W decode2) ws path.
Proof.
  intros Hsame. unfold UsingRemoteOps. go_simpl.
  destruct (ReadFile W _) as [err | bytes] eqn:Hread; cbn.
  { destruct (os_IsNotExist err); reflexivity. }
  destruct (json_Unmarshal W bytes) as [err | sf] eqn:Hjson; cbn;
    [reflexivity |].
  view_validate sf; cbn; try reflexivity.
  pose proof (validate_resolved sf sf _ _ _ _ _ Hb Ht Hc Ho Hw Hnp) as Hv.
  rewrite <- Hresolved in Hv. clear Hresolved.
  destruct (homedir_Dir W) as [err | home]; cbn; [reflexivity |].
  destruct (ReadFile W (filepath_Join W home _)) as [err | rcBytes]; cbn;
    [reflexivity |].
  destruct (hcl_Parse W rcBytes) as [err | obj]; cbn; [reflexivity |].
  specialize (Hsame obj).
  destruct (decode1 obj) as [err1 | rcFile1], (decode2 obj) as [err2 | rcFile2];
    try contradiction; cbn.
  { now subst. }
  specialize (Hsame sf resolved (statefile_of_intro _ _ _ _ Hread Hjson) Hv).
  unfold token_entry in Hsame.
  destruct (Terraformrc.Credentials rcFile1 !! _) as [conf1 |],
           (Terraformrc.Credentials rcFile2 !! _) as [conf2 |];
    cbn in Hsame; try discriminate Hsame; cbn; [| reflexivity].
  injection Hsame as ->.
  go_cases; reflexivity.
Qed.

Lemma only_the_hosts_token_matters_witness :
  UsingRemoteOps
    (with_credentials (demoEntitled [prefixedEntry])
       (fun _ => inr {| Terraformrc.Credentials :=
                          demoCredentials (HString "secret") |}))
    "prod" "/proj"
  = UsingRemoteOps
      (with_credentials (demoEntitled [prefixedEntry])
         (fun _ =>
            inr {| Terraformrc.Credentials :=
                     {[ "app.terraform.io" :=
                          {[ "token" := HString "secret";
                             "comment" := HBool true ]};
                        "tfe.example.com" := {[ "token" := HInt 7 ]} ]} |}))
      "prod" "/proj".
Proof.
  apply (only_the_hosts_token_matters (demoEntitled [prefixedEntry])).
  intros obj sf backend Hsf Hres.
  rewrite <- (statefile_of_fun _ _ _ _ (demo_statefile_of _ _ _ _) Hsf) in Hres.
  rewrite <- (resolves_fun (remoteState None [prefixedEntry])
               (demoBackend prefixedEntry) backend eq_refl Hres).
  reflexivity.
Defined.

(** X15: when the first workspace entry has no prefix, the caller's local
    workspace name plays no part at all: any two names give the same run. *)
Theorem local_workspace_unused_without_prefix W ws1 ws2 path :
  (forall sf backend,
      statefile_of W path sf -> resolves sf backend ->
      RemoteBackend.WorkspacePrefix backend = EmptyString) ->
  UsingRemoteOps W ws1 path = UsingRemoteOps W ws2 path.
Proof.
  intros Hprefix. go_start; try reflexivity.
  pose proof (validate_resolved sf sf _ _ _ _ _ Hb Ht Hc Ho Hw Hnp) as Hv.
  rewrite <- Hresolved in Hv. clear Hresolved.
  rewrite (Hprefix sf resolved (statefile_of_intro _ _ _ _ Hread Hjson) Hv).
  reflexivity.
Qed.

Lemma local_workspace_unused_without_prefix_witness :
  UsingRemoteOps (demoEntitled [exactEntry]) "prod" "/proj"
  = UsingRemoteOps (demoEntitled [exactEntry]) "staging" "/proj".
Proof.
  apply (local_workspace_unused_without_prefix (demoEntitled [exactEntry])).
  intros sf backend Hsf Hres.
  rewrite <- (statefile_of_fun _ _ _ _ (demo_statefile_of _ _ _ _) Hsf) in Hres.
  rewrite <- (resolves_fun (remoteState None [exactEntry])
               (demoBackend exactEntry) backend eq_refl Hres).
  reflexivity.
Defined.
